(** * Plans router of assessment-tssql: model and verified properties

    Shallow embedding of [src/modules/plans/router.ts]: the four tRPC
    procedures [get], [getUpgrade], [create] and [update], written over a
    small monad that threads the storage, the wall clock and thrown errors
    the way the asynchronous handlers do.

    Numbers.  Identifiers and [Date] time values (milliseconds since the
    epoch) are integers, taken in [Z].  Prices are JavaScript numbers, that
    is binary64 doubles; a finite double is taken as the rational [Q] it
    denotes, comparisons are exact, and each [-], [/] and [*] on prices is
    the exact operation followed by [toDouble], the rounding to the nearest
    double with ties to the even mantissa, subnormals included.  Infinity and
    NaN are not numbers of the model: results beyond the largest double are
    outside it; the two zeros are one number. *)

From Stdlib Require Import List ZArith QArith Qround Qpower Qabs String Bool Lia Lqa.
From Stdlib Require Import Floats.
Import ListNotations.

Local Open Scope string_scope.
Local Open Scope Z_scope.

(** ** Rows of the five tables the router touches

    The column lists are those the router and its tests read or write;
    [schema] itself is declared in [db/schema], outside these sources. *)

Module Plan.
Record t := mk {
  id : Z;
  name : string;
  monthlyPrice : Q;
  yearlyPrice : Q;
  createdAt : Z;
  updatedAt : option Z
}.
End Plan.

Module Team.
Record t := mk {
  id : Z;
  name : string;
  userId : Z
}.
End Team.

Module Subscription.
Record t := mk {
  id : Z;
  teamId : Z;
  planId : Z;
  subscriptionType : string;
  createdAt : Z
}.
End Subscription.

Module SubscriptionActivation.
Record t := mk {
  id : Z;
  subscriptionId : Z;
  activationDate : Z;
  lastActiveDate : Z
}.
End SubscriptionActivation.

Module User.
Record t := mk {
  id : Z;
  email : string;
  isAdmin : bool
}.
End User.

(** The storage: one list per table, in storage order. *)
Record Db := mkDb {
  plans : list Plan.t;
  teams : list Team.t;
  subscriptions : list Subscription.t;
  subscriptionActivations : list SubscriptionActivation.t;
  users : list User.t
}.

Definition set_plans (t : list Plan.t) (d : Db) : Db :=
  mkDb t (teams d) (subscriptions d) (subscriptionActivations d) (users d).

(** ** Errors *)

Inductive TRPC_ERROR_CODE :=
| BAD_REQUEST
| FORBIDDEN
| NOT_FOUND.

(** What a handler can throw: a [trpcError] raised by the router itself, the
    rejection of an input by its zod schema (tRPC raises it before the
    handler runs), or a failure of the storage driver. *)
Inductive Exception :=
| trpcError (code : TRPC_ERROR_CODE) (message : string)
| inputError
| storageError.

Inductive Outcome (A : Type) :=
| Returned (a : A)
| Threw (e : Exception).
Arguments Returned {A} a.
Arguments Threw {A} e.

(** ** The world a handler runs in

    [Env] is what the handler cannot influence: the successive readings of
    [new Date()], which storage requests the driver rejects, and whether the
    plans table (declared outside these sources) carries a unique index on
    [name].  [World] is what a call can change. *)

Record Env := mkEnv {
  clock : nat -> Z;
  storageFails : nat -> bool;
  planNameUnique : bool
}.

Record World := mkWorld {
  db : Db;
  requests : nat;
  reads : nat;
  console : list string
}.

Definition Async (A : Type) : Type := Env -> World -> Outcome A * World.

Definition ret {A} (a : A) : Async A := fun _ w => (Returned a, w).

Definition throw {A} (e : Exception) : Async A := fun _ w => (Threw e, w).

Definition bind {A B} (m : Async A) (k : A -> Async B) : Async B :=
  fun env w =>
    match m env w with
    | (Returned a, w') => k a env w'
    | (Threw e, w') => (Threw e, w')
    end.

Definition tryCatch {A} (m : Async A) (handler : Exception -> Async A) : Async A :=
  fun env w =>
    match m env w with
    | (Returned a, w') => (Returned a, w')
    | (Threw e, w') => handler e env w'
    end.

Declare Scope async_scope.
Delimit Scope async_scope with async.
Notation "x <- m ;; k" := (bind m (fun x => k))
  (at level 100, m at next level, right associativity) : async_scope.
Notation "m ;; k" := (bind m (fun _ => k))
  (at level 100, right associativity) : async_scope.
Local Open Scope async_scope.

(** [new Date().valueOf()]: the next reading of the clock. *)
Definition newDate : Async Z :=
  fun env w =>
    (Returned (clock env (reads w)),
     mkWorld (db w) (requests w) (S (reads w)) (console w)).

Definition console_error (line : string) : Async unit :=
  fun _ w =>
    (Returned tt, mkWorld (db w) (requests w) (reads w) (console w ++ [line])).

(** One round trip to the storage.  [run] is the statement: it answers with
    a value and the new tables, or [None] when a constraint rejects it. *)
Definition request {A} (run : Env -> Db -> option (A * Db)) : Async A :=
  fun env w =>
    let w' := mkWorld (db w) (S (requests w)) (reads w) (console w) in
    if storageFails env (requests w) then (Threw storageError, w')
    else match run env (db w) with
         | Some (a, d) =>
             (Returned a, mkWorld d (S (requests w)) (reads w) (console w))
         | None => (Threw storageError, w')
         end.

(** [db.query.<table>.findMany()] and [db.query.<table>.findFirst({ where })]. *)
Definition findMany {R} (table : Db -> list R) : Async (list R) :=
  request (fun _ d => Some (table d, d)).

Definition findFirst {R} (table : Db -> list R) (where_ : R -> bool)
  : Async (option R) :=
  request (fun _ d => Some (find where_ (table d), d)).

(** Row identities are generated by the storage: one past the largest. *)
Definition nextId (ids : list Z) : Z := 1 + fold_right Z.max 0 ids.

Fixpoint distinct (l : list string) : bool :=
  match l with
  | [] => true
  | x :: r => negb (existsb (String.eqb x) r) && distinct r
  end.

(** A write of the plans table is rejected when the table carries the unique
    index and the written table would hold one name twice. *)
Definition commitPlans {A} (a : A) (t : list Plan.t) : Env -> Db -> option (A * Db) :=
  fun env d =>
    if planNameUnique env && negb (distinct (map Plan.name t)) then None
    else Some (a, set_plans t d).

(** [db.insert(schema.plans).values({ createdAt, name, monthlyPrice,
    yearlyPrice }).returning()] *)
Definition insertPlan (createdAt : Z) (name : string) (monthlyPrice yearlyPrice : Q)
  : Async (list Plan.t) :=
  request (fun env d =>
    let row := Plan.mk (nextId (map Plan.id (plans d))) name
                       monthlyPrice yearlyPrice createdAt None in
    commitPlans [row] (plans d ++ [row]) env d).

(** [db.update(schema.plans).set({ updatedAt, name, monthlyPrice,
    yearlyPrice }).where(eq(schema.plans.id, id))] *)
Definition setPlan (updatedAt : Z) (name : string) (monthlyPrice yearlyPrice : Q)
    (id : Z) (p : Plan.t) : Plan.t :=
  if Plan.id p =? id
  then Plan.mk (Plan.id p) name monthlyPrice yearlyPrice (Plan.createdAt p)
               (Some updatedAt)
  else p.

Definition updatePlan (updatedAt : Z) (name : string) (monthlyPrice yearlyPrice : Q)
    (id : Z) : Async unit :=
  request (fun env d =>
    commitPlans tt (map (setPlan updatedAt name monthlyPrice yearlyPrice id) (plans d))
                env d).

(** ** Number helpers *)

Definition Qltb (x y : Q) : bool :=
  (Qnum x * QDen y <? Qnum y * QDen x)%Z.

(** [Math.round]: the nearest integer, a tie going up. *)
Definition Math_round (x : Q) : Z := Qfloor (x + (1 # 2)).

Definition msPerDay : Z := 24 * 60 * 60 * 1000.

(** *** Doubles

    [ilog2 x], for a positive [x], is the exponent of its binade:
    [2 ^ ilog2 x <= x < 2 ^ (ilog2 x + 1)]. *)
Definition ilog2 (x : Q) : Z :=
  let e := Z.log2 (Qnum x) - Z.log2 (Zpos (Qden x)) in
  if Qle_bool (2 ^ e) x then e else e - 1.

(** The nearest integer, a tie going to the even one. *)
Definition roundHalfEven (t : Q) : Z :=
  let f := Qfloor t in
  match (t - inject_Z f ?= 1 # 2)%Q with
  | Lt => f
  | Gt => f + 1
  | Eq => if Z.even f then f else f + 1
  end.

(** The exponent of the spacing of the doubles around a positive [x]: 53
    bits of mantissa in a binade, and the spacing [2 ^ -1074] of the
    subnormals below [2 ^ -1022]. *)
Definition quantum (x : Q) : Z := Z.max (ilog2 x) (-1022) - 52.

Definition roundPositive (x : Q) : Q :=
  (inject_Z (roundHalfEven (x / 2 ^ quantum x)) * 2 ^ quantum x)%Q.

(** The double nearest to [x]: what a binary64 operation returns when [x]
    is its exact result. *)
Definition toDouble (x : Q) : Q :=
  match Qnum x with
  | Z0 => 0%Q
  | Zpos _ => roundPositive x
  | Zneg _ => (- roundPositive (- x))%Q
  end.

(** ** The router *)

(** [ctx.user] of a protected procedure: the authenticated caller. *)
Record Ctx := mkCtx { userId : Z }.

(** *** [get] *)
Definition get : Async (list Plan.t) :=
  tryCatch
    (plans <- findMany plans ;;
     ret plans)
    (fun error =>
       console_error "Error fetching plans" ;;
       ret []).

(** *** [getUpgrade]

    Its input schema, [z.object({ teamId: z.number(), planId: z.number() })],
    takes every pair of numbers; the handler reads the clock twice, once for
    the activation lookup and once for the days that remain. *)
Record UpgradeInput := mkUpgradeInput { teamId : Z; planId : Z }.

Record UpgradeQuote := mkUpgradeQuote {
  currentPlan : Plan.t;
  newPlan : Plan.t;
  daysRemaining : Z;
  priceDifference : Q;
  upgradingPrice : Q
}.

Definition getUpgrade (user : Ctx) (input : UpgradeInput) : Async UpgradeQuote :=
  let userId := userId user in
  let teamId := teamId input in
  let planId := planId input in
  team <- findFirst teams (fun t => Team.id t =? teamId) ;;
  match team with
  | None => throw (trpcError BAD_REQUEST "Invalid teamId")
  | Some team =>
  if negb (Team.userId team =? userId)
  then throw (trpcError FORBIDDEN "You don't have access to the team")
  else
  subscription <- findFirst subscriptions
                    (fun s => Subscription.teamId s =? teamId) ;;
  match subscription with
  | None => throw (trpcError NOT_FOUND "The team doesn't have subscription")
  | Some subscription =>
  now <- newDate ;;
  subscriptionActivation <-
    findFirst subscriptionActivations
      (fun a => (SubscriptionActivation.subscriptionId a =? Subscription.id subscription)
                && (SubscriptionActivation.lastActiveDate a >=? now)) ;;
  match subscriptionActivation with
  | None => throw (trpcError BAD_REQUEST "Subscription not active")
  | Some subscriptionActivation =>
  newPlan <- findFirst plans (fun p => Plan.id p =? planId) ;;
  currentPlan <- findFirst plans
                   (fun p => Plan.id p =? Subscription.planId subscription) ;;
  match newPlan, currentPlan with
  | Some newPlan, Some currentPlan =>
      if Qltb (Plan.monthlyPrice newPlan) (Plan.monthlyPrice currentPlan)
      then throw (trpcError BAD_REQUEST
                    "Unable to calculate the price for downgrading plan")
      else
      now' <- newDate ;;
      let daysRemaining :=
        Math_round
          (inject_Z (SubscriptionActivation.lastActiveDate subscriptionActivation - now')
           / inject_Z msPerDay) in
      let priceDifference :=
        toDouble (Plan.monthlyPrice newPlan - Plan.monthlyPrice currentPlan) in
      let upgradingPrice :=
        toDouble (toDouble (priceDifference / inject_Z 30)
                  * inject_Z daysRemaining) in
      ret (mkUpgradeQuote currentPlan newPlan daysRemaining priceDifference
             upgradingPrice)
  | _, _ => throw (trpcError BAD_REQUEST "Invalid plan")
  end
  end
  end
  end.

(** *** [create] and [update] *)

Record Success := mkSuccess { success : bool }.

Record CreateInput := mkCreateInput {
  create_name : string;
  create_monthlyPrice : Q;
  create_yearlyPrice : Q
}.

Record UpdateInput := mkUpdateInput {
  update_id : Z;
  update_name : string;
  update_monthlyPrice : Q;
  update_yearlyPrice : Q
}.

(** [z.number().nonnegative()] *)
Definition nonnegative (x : Q) : bool := Qle_bool 0 x.

(** [z.object({ name: z.string(), monthlyPrice: z.number().nonnegative(),
    yearlyPrice: z.number().nonnegative() })]: every string is a name. *)
Definition createSchema (i : CreateInput) : bool :=
  nonnegative (create_monthlyPrice i) && nonnegative (create_yearlyPrice i).

Definition updateSchema (i : UpdateInput) : bool :=
  nonnegative (update_monthlyPrice i) && nonnegative (update_yearlyPrice i).

(** [.input(schema)]: the handler runs on inputs the schema accepts. *)
Definition withInput {I A} (schema : I -> bool) (handler : I -> Async A) (i : I)
  : Async A :=
  if schema i then handler i else throw inputError.

(** [!userInDb?.isAdmin] *)
Definition notAdmin (userInDb : option User.t) : bool :=
  negb match userInDb with
       | Some u => User.isAdmin u
       | None => false
       end.

Definition create (user : Ctx) : CreateInput -> Async Success :=
  withInput createSchema (fun input =>
    let userId := userId user in
    let name := create_name input in
    let monthlyPrice := create_monthlyPrice input in
    let yearlyPrice := create_yearlyPrice input in
    userInDb <- findFirst users (fun u => User.id u =? userId) ;;
    if notAdmin userInDb
    then throw (trpcError FORBIDDEN "Only admin allowed to access")
    else
    createdAt <- newDate ;;
    insertPlan createdAt name monthlyPrice yearlyPrice ;;
    ret (mkSuccess true)).

Definition update (user : Ctx) : UpdateInput -> Async Success :=
  withInput updateSchema (fun input =>
    let userId := userId user in
    let id := update_id input in
    let name := update_name input in
    let monthlyPrice := update_monthlyPrice input in
    let yearlyPrice := update_yearlyPrice input in
    userInDb <- findFirst users (fun u => User.id u =? userId) ;;
    if notAdmin userInDb
    then throw (trpcError FORBIDDEN "Only admin allowed to access")
    else
    updatedAt <- newDate ;;
    updatePlan updatedAt name monthlyPrice yearlyPrice id ;;
    ret (mkSuccess true)).


(** ** Notions the properties are stated with *)

(** The lookups of the upgrade pipeline by their collaborator names; each is
    the [where] clause of the corresponding [findFirst] of [getUpgrade]. *)

Definition findTeamById (d : Db) (id : Z) : option Team.t :=
  find (fun t => Team.id t =? id) (teams d).

Definition findSubscriptionByTeamId (d : Db) (teamId : Z) : option Subscription.t :=
  find (fun s => Subscription.teamId s =? teamId) (subscriptions d).

Definition findActiveActivation (d : Db) (subscriptionId now : Z)
  : option SubscriptionActivation.t :=
  find (fun a => (SubscriptionActivation.subscriptionId a =? subscriptionId)
                 && (SubscriptionActivation.lastActiveDate a >=? now))
       (subscriptionActivations d).

Definition findPlanById (d : Db) (id : Z) : option Plan.t :=
  find (fun p => Plan.id p =? id) (plans d).

Definition findUserById (d : Db) (id : Z) : option User.t :=
  find (fun u => User.id u =? id) (users d).

(** The storage answers every request. *)
Definition storageUp (env : Env) : Prop :=
  forall n, storageFails env n = false.

(** The plans table [t] may be written: it respects the unique index, where
    there is one. *)
Definition accepted (env : Env) (t : list Plan.t) : Prop :=
  planNameUnique env = true -> NoDup (map Plan.name t).

(** A computation that leaves the storage as it found it. *)
Definition readOnly {A} (m : Async A) : Prop :=
  forall env w, db (snd (m env w)) = db w.

(** The world after [n] storage requests and [k] clock readings that wrote
    nothing. *)
Definition after (n k : nat) (w : World) : World :=
  mkWorld (db w) (n + requests w) (k + reads w) (console w).

(** The quote for an activation and two plans at the clock reading [now]. *)
Definition quoteOf (activation : SubscriptionActivation.t)
    (currentPlan newPlan : Plan.t) (now : Z) : UpgradeQuote :=
  let days :=
    Math_round (inject_Z (SubscriptionActivation.lastActiveDate activation - now)
                / inject_Z 86400000) in
  let difference :=
    toDouble (Plan.monthlyPrice newPlan - Plan.monthlyPrice currentPlan) in
  {| currentPlan := currentPlan;
     newPlan := newPlan;
     daysRemaining := days;
     priceDifference := difference;
     upgradingPrice :=
       toDouble (toDouble (difference / inject_Z 30) * inject_Z days) |}.

(** The rational a primitive binary64 float denotes, when it is finite; it
    ties [toDouble] to the machine's own arithmetic in the checks below. *)
Definition valueOf (f : float) : Q :=
  match Prim2SF f with
  | S754_finite s m e =>
      ((if s then -1 else 1) * inject_Z (Zpos m) * 2 ^ e)%Q
  | _ => 0%Q
  end.

(** The largest double, and the exact results that round to a finite one at
    all; the smallest positive double. *)
Definition maxDouble : Q := inject_Z ((2 ^ 53 - 1) * 2 ^ 971).

Definition inRange (x : Q) : Prop := (Qabs x <= maxDouble)%Q.


(** The row [create] stores and the row [update] leaves in place of [p]. *)
Definition createdRow (t : list Plan.t) (input : CreateInput) (now : Z) : Plan.t :=
  {| Plan.id := nextId (map Plan.id t);
     Plan.name := create_name input;
     Plan.monthlyPrice := create_monthlyPrice input;
     Plan.yearlyPrice := create_yearlyPrice input;
     Plan.createdAt := now;
     Plan.updatedAt := None |}.

Definition updatedRow (input : UpdateInput) (now : Z) (p : Plan.t) : Plan.t :=
  {| Plan.id := Plan.id p;
     Plan.name := update_name input;
     Plan.monthlyPrice := update_monthlyPrice input;
     Plan.yearlyPrice := update_yearlyPrice input;
     Plan.createdAt := Plan.createdAt p;
     Plan.updatedAt := Some now |}.

(** Sequences of writes, each call a request of its own: a call that throws
    does not stop the next one. *)
Inductive Call :=
| callCreate (user : Ctx) (input : CreateInput)
| callUpdate (user : Ctx) (input : UpdateInput).

Definition call (c : Call) : Async Success :=
  match c with
  | callCreate user input => create user input
  | callUpdate user input => update user input
  end.

Fixpoint runCalls (cs : list Call) (env : Env) (w : World) : World :=
  match cs with
  | [] => w
  | c :: rest => runCalls rest env (snd (call c env w))
  end.

Definition namesUnique (d : Db) : Prop := NoDup (map Plan.name (plans d)).

(** ** The scenario of [tests/plans/plans.test.ts] *)

Module Fixture.
Definition day : Z := 86400000.
Definition hour : Z := 3600000.
Definition t0 : Z := 1700000000000.

Definition member : User.t := User.mk 1 "admin@mail.com" false.
Definition admin : User.t := User.mk 1 "admin@mail.com" true.
Definition caller : Ctx := mkCtx 1.
Definition stranger : Ctx := mkCtx 2.

Definition starterPlan : CreateInput := mkCreateInput "Starter" (19 # 1) (179 # 1).
Definition basicPlan (id : Z) : UpdateInput := mkUpdateInput id "Basic" (29 # 1) (279 # 1).
Definition namelessPlan : CreateInput := mkCreateInput "" (19 # 1) (179 # 1).

Definition Starter : Plan.t := Plan.mk 1 "Starter" (19 # 1) (179 # 1) t0 None.
Definition Basic : Plan.t := Plan.mk 1 "Basic" (29 # 1) (279 # 1) t0 (Some t0).
Definition Plus : Plan.t := Plan.mk 2 "Plus" (59 # 1) (599 # 1) t0 None.
Definition Premium : Plan.t := Plan.mk 3 "Premium" (199 # 1) (1999 # 1) t0 None.

Definition superTeam : Team.t := Team.mk 1 "SuperTeam" 1.
Definition monthly : Subscription.t := Subscription.mk 1 1 2 "monthly" t0.
Definition fortnight : SubscriptionActivation.t :=
  SubscriptionActivation.mk 1 1 t0 (t0 + 14 * day).
Definition lapsed : SubscriptionActivation.t :=
  SubscriptionActivation.mk 1 1 (t0 - 30 * day) (t0 - day).
Definition lastHour : SubscriptionActivation.t :=
  SubscriptionActivation.mk 1 1 (t0 - 30 * day) (t0 + hour).

Definition noUsers : Db := mkDb [] [] [] [] [].
Definition memberOnly : Db := mkDb [] [] [] [] [member].
Definition adminOnly : Db := mkDb [] [] [] [] [admin].
Definition withStarter : Db := mkDb [Starter] [] [] [] [admin].
Definition threePlans : list Plan.t := [Basic; Plus; Premium].
Definition plansOnly : Db := mkDb threePlans [] [] [] [admin].
Definition teamOnly : Db := mkDb threePlans [superTeam] [] [] [admin].
Definition unpaid : Db := mkDb threePlans [superTeam] [monthly] [] [admin].
Definition inactive : Db := mkDb threePlans [superTeam] [monthly] [lapsed] [admin].
Definition active : Db := mkDb threePlans [superTeam] [monthly] [fortnight] [admin].
Definition expiring : Db := mkDb threePlans [superTeam] [monthly] [lastHour] [admin].

Definition fresh (d : Db) : World := mkWorld d 0 0 [].

(** A clock that advances 40 ms per reading from [t0 + 25 ms]; a storage that
    answers; [indexed] says whether plan names carry a unique index. *)
Definition steady (indexed : bool) : Env :=
  mkEnv (fun n => t0 + 25 + 40 * Z.of_nat n) (fun _ => false) indexed.

(** The same with a storage that rejects every request. *)
Definition down : Env :=
  mkEnv (fun n => t0 + 25 + 40 * Z.of_nat n) (fun _ => true) false.

(** A clock whose second reading comes fourteen hours after the first. *)
Definition stalled : Env :=
  mkEnv (fun n => t0 + 14 * hour * Z.of_nat n) (fun _ => false) false.
End Fixture.

(** ** The helpers of [tests/plans/plans.test.ts]

    The suite registers one user, [user], and reaches the storage through
    three helpers; two of them are storage statements of their own. *)

Module Suite.
Definition email : string := "admin@mail.com".

(** [getPlanInDb(plan)]: [db.query.plans.findFirst({ where:
    eq(schema.plans.name, plan.name) })]. *)
Definition getPlanInDb (plan : CreateInput) : Async (option Plan.t) :=
  findFirst plans (fun p => String.eqb (Plan.name p) (create_name plan)).

(** The columns [updateUser] may be handed, each one optional. *)
Record UserData := mkUserData {
  data_email : option string;
  data_isAdmin : option bool
}.

Definition setUser (newData : UserData) (u : User.t) : User.t :=
  User.mk (User.id u)
          match data_email newData with Some e => e | None => User.email u end
          match data_isAdmin newData with Some b => b | None => User.isAdmin u end.

Definition set_users (t : list User.t) (d : Db) : Db :=
  mkDb (plans d) (teams d) (subscriptions d) (subscriptionActivations d) t.

(** [updateUser(newData)]: [db.update(schema.users).set(newData)
    .where(eq(schema.users.email, user.email))]. *)
Definition updateUser (newData : UserData) : Async unit :=
  request (fun _ d =>
    Some (tt, set_users
                (map (fun u => if String.eqb (User.email u) email
                               then setUser newData u else u)
                     (users d))
                d)).
End Suite.

(** Who makes a call, and the calls of a list made by non-administrators of
    the storage [d]. *)
Definition callerOf (c : Call) : Ctx :=
  match c with
  | callCreate user _ => user
  | callUpdate user _ => user
  end.

Definition outsiders (d : Db) (calls : list Call) : Prop :=
  Forall (fun c => notAdmin (findUserById d (userId (callerOf c))) = true) calls.

(** What stays of a plan row for good: its identity and its creation time. *)
Definition birth (p : Plan.t) : Z * Z := (Plan.id p, Plan.createdAt p).

(** * Properties *)

(** ** Frame: computations that leave the storage alone *)

Lemma readOnly_ret {A} (a : A) : readOnly (ret a).
Proof. intros env w. reflexivity. Qed.

Lemma readOnly_throw {A} (e : Exception) : readOnly (@throw A e).
Proof. intros env w. reflexivity. Qed.

Lemma readOnly_newDate : readOnly newDate.
Proof. intros env w. reflexivity. Qed.

Lemma readOnly_console_error line : readOnly (console_error line).
Proof. intros env w. reflexivity. Qed.

Lemma readOnly_bind {A B} (m : Async A) (k : A -> Async B) :
  readOnly m -> (forall a, readOnly (k a)) -> readOnly (bind m k).
Proof.
  intros Hm Hk env w. unfold bind.
  specialize (Hm env w).
  destruct (m env w) as [[a | e] w1]; simpl in *.
  - rewrite Hk. assumption.
  - assumption.
Qed.

Lemma readOnly_tryCatch {A} (m : Async A) (h : Exception -> Async A) :
  readOnly m -> (forall e, readOnly (h e)) -> readOnly (tryCatch m h).
Proof.
  intros Hm Hh env w. unfold tryCatch.
  specialize (Hm env w).
  destruct (m env w) as [[a | e] w1]; simpl in *.
  - assumption.
  - rewrite Hh. assumption.
Qed.

Lemma readOnly_findFirst {R} (table : Db -> list R) (where_ : R -> bool) :
  readOnly (findFirst table where_).
Proof.
  intros env w. unfold findFirst, request.
  destruct (storageFails env (requests w)); reflexivity.
Qed.

Lemma readOnly_findMany {R} (table : Db -> list R) : readOnly (findMany table).
Proof.
  intros env w. unfold findMany, request.
  destruct (storageFails env (requests w)); reflexivity.
Qed.

Create HintDb frame.
#[local] Hint Resolve readOnly_ret readOnly_throw readOnly_newDate
  readOnly_console_error readOnly_findFirst readOnly_findMany : frame.

Ltac frame_step :=
  match goal with
  | |- readOnly (bind _ _) => apply readOnly_bind; [ | intros ? ]
  | |- readOnly (tryCatch _ _) => apply readOnly_tryCatch; [ | intros ? ]
  | |- readOnly (match ?x with _ => _ end) => destruct x
  | |- readOnly (if ?b then _ else _) => destruct b
  | |- readOnly _ => solve [ auto with frame ]
  end.

(** ** Running a handler when the storage answers *)

Lemma request_up {A} (run : Env -> Db -> option (A * Db)) env w a d :
  storageFails env (requests w) = false ->
  run env (db w) = Some (a, d) ->
  request run env w
  = (Returned a, mkWorld d (S (requests w)) (reads w) (console w)).
Proof. intros Hs Hr. unfold request. rewrite Hs, Hr. reflexivity. Qed.

Lemma findFirst_up {R} (table : Db -> list R) (where_ : R -> bool) env w :
  storageFails env (requests w) = false ->
  findFirst table where_ env w
  = (Returned (find where_ (table (db w))),
     mkWorld (db w) (S (requests w)) (reads w) (console w)).
Proof. intros Hs. unfold findFirst. apply request_up; [assumption | reflexivity]. Qed.

Lemma bind_returned {A B} (m : Async A) (k : A -> Async B) env w a w1 :
  m env w = (Returned a, w1) -> bind m k env w = k a env w1.
Proof. intros H. unfold bind. rewrite H. reflexivity. Qed.

Ltac run_up Hup :=
  unfold getUpgrade, findTeamById, findSubscriptionByTeamId, findActiveActivation,
    findPlanById in *;
  repeat (first
    [ erewrite bind_returned by (apply findFirst_up; apply Hup)
    | erewrite bind_returned by reflexivity ];
    cbn [db requests reads console]).

(** ** Rounding to the nearest double *)

Section Doubles.
Local Open Scope Q_scope.

Lemma two_pow_pos (k : Z) : 0 < 2 ^ k.
Proof. apply Qpower_0_lt. reflexivity. Qed.

Lemma two_pow_nat (k : Z) : (0 <= k)%Z -> 2 ^ k == inject_Z (2 ^ k).
Proof. intros H. rewrite Zpower_Qpower by exact H. reflexivity. Qed.

Lemma two_pow_diff (a b : Z) :
  (0 <= a)%Z -> (0 <= b)%Z -> 2 ^ (a - b) == inject_Z (2 ^ a) / inject_Z (2 ^ b).
Proof.
  intros Ha Hb. rewrite Qpower_minus by discriminate.
  rewrite !two_pow_nat by assumption. reflexivity.
Qed.

Lemma frac_lt (n A B : Z) (d : positive) :
  (0 < B)%Z -> (n * B < A * Zpos d)%Z -> n # d < inject_Z A / inject_Z B.
Proof.
  intros HB H. apply Qlt_shift_div_l.
  - unfold Qlt. simpl. lia.
  - unfold Qlt. simpl. lia.
Qed.

Lemma frac_gt (n A B : Z) (d : positive) :
  (0 < B)%Z -> (A * Zpos d < n * B)%Z -> inject_Z A / inject_Z B < n # d.
Proof.
  intros HB H. apply Qlt_shift_div_r.
  - unfold Qlt. simpl. lia.
  - unfold Qlt. simpl. lia.
Qed.

Lemma ilog2_rough (x : Q) :
  0 < x ->
  let e := (Z.log2 (Qnum x) - Z.log2 (Zpos (Qden x)))%Z in
  2 ^ (e - 1) < x /\ x < 2 ^ (e + 1).
Proof.
  destruct x as [n d]. intros Hn e. subst e.
  unfold Qlt in Hn. simpl in Hn. rewrite Z.mul_1_r in Hn. cbn [Qnum Qden].
  pose proof (Z.log2_spec n Hn) as [Hn1 Hn2].
  pose proof (Z.log2_spec (Zpos d) ltac:(lia)) as [Hd1 Hd2].
  pose proof (Z.log2_nonneg n) as Ha.
  pose proof (Z.log2_nonneg (Zpos d)) as Hb.
  set (a := Z.log2 n) in *. set (b := Z.log2 (Zpos d)) in *.
  assert (Hpa : (0 < 2 ^ a)%Z) by (apply Z.pow_pos_nonneg; lia).
  assert (Hpb : (0 < 2 ^ b)%Z) by (apply Z.pow_pos_nonneg; lia).
  split.
  - replace (a - b - 1)%Z with (a - Z.succ b)%Z by lia.
    rewrite two_pow_diff by lia.
    apply frac_gt; [ apply Z.pow_pos_nonneg; lia | nia ].
  - replace (a - b + 1)%Z with (Z.succ a - b)%Z by lia.
    rewrite two_pow_diff by lia.
    apply frac_lt; [ exact Hpb | nia ].
Qed.

Lemma two_pow_succ (k : Z) : 2 ^ (k + 1) == 2 * 2 ^ k.
Proof. rewrite Qpower_plus by discriminate. simpl. ring. Qed.

Lemma ilog2_spec (x : Q) :
  0 < x -> 2 ^ ilog2 x <= x /\ x < 2 ^ (ilog2 x + 1).
Proof.
  intros Hx. destruct (ilog2_rough x Hx) as [Hlo Hhi].
  unfold ilog2.
  set (e := (Z.log2 (Qnum x) - Z.log2 (Zpos (Qden x)))%Z) in *.
  destruct (Qle_bool (2 ^ e) x) eqn:E.
  - apply Qle_bool_iff in E. split; assumption.
  - split.
    + apply Qlt_le_weak. exact Hlo.
    + replace (e - 1 + 1)%Z with e by lia.
      apply Qnot_le_lt. intros H. apply Qle_bool_iff in H. congruence.
Qed.

Lemma ilog2_le (x y : Q) : 0 < x -> x <= y -> (ilog2 x <= ilog2 y)%Z.
Proof.
  intros Hx Hxy.
  assert (Hy : 0 < y) by (eapply Qlt_le_trans; eassumption).
  destruct (ilog2_spec x Hx) as [Hx1 _].
  destruct (ilog2_spec y Hy) as [_ Hy2].
  assert (H : 2 ^ ilog2 x < 2 ^ (ilog2 y + 1)).
  { eapply Qle_lt_trans; [ exact Hx1 | ].
    eapply Qle_lt_trans; [ exact Hxy | exact Hy2 ]. }
  apply Qpower_lt_compat_l_inv in H; [ lia | reflexivity ].
Qed.

Lemma roundHalfEven_bounds (t : Q) :
  (Qfloor t <= roundHalfEven t <= Qfloor t + 1)%Z.
Proof.
  unfold roundHalfEven.
  destruct (t - inject_Z (Qfloor t) ?= 1 # 2); [ destruct (Z.even (Qfloor t)) | | ]; lia.
Qed.

Lemma roundHalfEven_le (t t' : Q) :
  t <= t' -> (roundHalfEven t <= roundHalfEven t')%Z.
Proof.
  intros H.
  pose proof (Qfloor_resp_le _ _ H) as Hf.
  pose proof (roundHalfEven_bounds t) as Hb.
  pose proof (roundHalfEven_bounds t') as Hb'.
  destruct (Z.eq_dec (Qfloor t) (Qfloor t')) as [E | E]; [ | lia ].
  clear Hb Hb' Hf. unfold roundHalfEven. rewrite <- E.
  assert (Hr : t - inject_Z (Qfloor t) <= t' - inject_Z (Qfloor t)).
  { apply Qplus_le_l. exact H. }
  destruct (t - inject_Z (Qfloor t) ?= 1 # 2) eqn:C;
    destruct (t' - inject_Z (Qfloor t) ?= 1 # 2) eqn:C';
    try (destruct (Z.even (Qfloor t))); try lia; exfalso;
    repeat match goal with
    | H : (_ ?= _) = Eq |- _ => apply Qeq_alt in H
    | H : (_ ?= _) = Lt |- _ => apply Qlt_alt in H
    | H : (_ ?= _) = Gt |- _ => apply Qgt_alt in H
    end; lra.
Qed.

Lemma roundHalfEven_Z (z : Z) : roundHalfEven (inject_Z z) = z.
Proof.
  unfold roundHalfEven. rewrite Qfloor_Z.
  assert (C : (inject_Z z - inject_Z z ?= 1 # 2) = Lt).
  { apply Qlt_alt. setoid_replace (inject_Z z - inject_Z z) with 0 by ring.
    reflexivity. }
  rewrite C. reflexivity.
Qed.

Lemma quantum_le (x y : Q) : 0 < x -> x <= y -> (quantum x <= quantum y)%Z.
Proof.
  intros Hx Hxy. unfold quantum.
  pose proof (ilog2_le x y Hx Hxy). lia.
Qed.

Lemma roundPositive_nonneg (x : Q) : 0 < x -> 0 <= roundPositive x.
Proof.
  intros Hx. unfold roundPositive.
  apply Qmult_le_0_compat; [ | apply Qlt_le_weak, two_pow_pos ].
  change 0 with (inject_Z 0). rewrite <- Zle_Qle.
  rewrite <- (roundHalfEven_Z 0). apply roundHalfEven_le.
  apply Qle_shift_div_l; [ apply two_pow_pos | ].
  simpl. rewrite Qmult_0_l. apply Qlt_le_weak. exact Hx.
Qed.

(** Rounding on the grid of quantum [2 ^ q] does not step over a point of
    that grid. *)
Lemma grid_below (x : Q) (q g : Z) :
  x <= inject_Z g * 2 ^ q ->
  inject_Z (roundHalfEven (x / 2 ^ q)) * 2 ^ q <= inject_Z g * 2 ^ q.
Proof.
  intros H. apply Qmult_le_compat_r; [ | apply Qlt_le_weak, two_pow_pos ].
  rewrite <- Zle_Qle. rewrite <- (roundHalfEven_Z g).
  apply roundHalfEven_le.
  apply Qle_shift_div_r; [ apply two_pow_pos | exact H ].
Qed.

Lemma grid_above (x : Q) (q g : Z) :
  inject_Z g * 2 ^ q <= x ->
  inject_Z g * 2 ^ q <= inject_Z (roundHalfEven (x / 2 ^ q)) * 2 ^ q.
Proof.
  intros H. apply Qmult_le_compat_r; [ | apply Qlt_le_weak, two_pow_pos ].
  rewrite <- Zle_Qle. rewrite <- (roundHalfEven_Z g) at 1.
  apply roundHalfEven_le.
  apply Qle_shift_div_l; [ apply two_pow_pos | exact H ].
Qed.

(** A power of two not below the quantum lies on the grid. *)
Lemma on_grid (e q : Z) : (q <= e)%Z -> 2 ^ e == inject_Z (2 ^ (e - q)) * 2 ^ q.
Proof.
  intros H. rewrite <- two_pow_nat by lia.
  rewrite <- Qpower_plus by discriminate.
  replace (e - q + q)%Z with e by lia. reflexivity.
Qed.

Lemma roundPositive_le (x y : Q) :
  0 < x -> x <= y -> roundPositive x <= roundPositive y.
Proof.
  intros Hx Hxy.
  assert (Hy : 0 < y) by (eapply Qlt_le_trans; eassumption).
  pose proof (quantum_le x y Hx Hxy) as Hq.
  unfold roundPositive.
  destruct (Z.eq_dec (quantum x) (quantum y)) as [E | E].
  - rewrite E. apply Qmult_le_compat_r; [ | apply Qlt_le_weak, two_pow_pos ].
    rewrite <- Zle_Qle. apply roundHalfEven_le.
    apply Qmult_le_compat_r; [ exact Hxy | ].
    apply Qinv_le_0_compat. apply Qlt_le_weak, two_pow_pos.
  - (* the grids differ: the power of two between them separates the results *)
    pose proof (ilog2_le x y Hx Hxy) as He.
    destruct (ilog2_spec x Hx) as [_ Hx2].
    destruct (ilog2_spec y Hy) as [Hy1 _].
    unfold quantum in Hq, E |- *.
    set (ex := ilog2 x) in *. set (ey := ilog2 y) in *.
    assert (Hey : (Z.max ex (-1022) < ey)%Z) by lia.
    assert (Hmax : Z.max ey (-1022) = ey) by lia.
    rewrite Hmax in *.
    apply Qle_trans with (2 ^ ey).
    + rewrite (on_grid ey (Z.max ex (-1022) - 52)) by lia.
      apply grid_below.
      rewrite <- on_grid by lia.
      apply Qle_trans with (2 ^ (ex + 1)); [ apply Qlt_le_weak; exact Hx2 | ].
      apply Qpower_le_compat_l; [ lia | discriminate ].
    + rewrite (on_grid ey (ey - 52)) at 1 by lia.
      apply grid_above.
      rewrite <- on_grid by lia. exact Hy1.
Qed.

Lemma Qnum_pos (x : Q) p : Qnum x = Zpos p -> 0 < x.
Proof. intros H. unfold Qlt. simpl. rewrite H. lia. Qed.

Lemma Qnum_neg (x : Q) p : Qnum x = Zneg p -> 0 < - x.
Proof. intros H. unfold Qlt. simpl. rewrite H. lia. Qed.

Lemma Qnum_zero (x : Q) : Qnum x = 0%Z <-> x == 0.
Proof. unfold Qeq. simpl. lia. Qed.

Lemma toDouble_zero (x : Q) : x == 0 -> toDouble x == 0.
Proof.
  intros H. apply Qnum_zero in H. unfold toDouble. rewrite H. reflexivity.
Qed.

Lemma toDouble_nonneg (x : Q) : 0 <= x -> 0 <= toDouble x.
Proof.
  intros H. unfold toDouble. destruct (Qnum x) as [ | p | p ] eqn:E.
  - apply Qle_refl.
  - apply roundPositive_nonneg. eapply Qnum_pos. exact E.
  - exfalso. apply Qnum_neg in E. lra.
Qed.

Lemma toDouble_nonpos (x : Q) : x <= 0 -> toDouble x <= 0.
Proof.
  intros H. unfold toDouble. destruct (Qnum x) as [ | p | p ] eqn:E.
  - apply Qle_refl.
  - exfalso. apply Qnum_pos in E. lra.
  - apply Qnum_neg in E. pose proof (roundPositive_nonneg _ E). lra.
Qed.

(** Rounding to the nearest double keeps the order. *)
Lemma toDouble_le (x y : Q) : x <= y -> toDouble x <= toDouble y.
Proof.
  intros H.
  destruct (Qlt_le_dec 0 x) as [Hx | Hx].
  - (* both positive *)
    assert (Hy : 0 < y) by lra.
    unfold toDouble.
    destruct (Qnum x) as [ | p | p ] eqn:Ex;
      [ apply Qnum_zero in Ex; lra | | apply Qnum_neg in Ex; lra ].
    destruct (Qnum y) as [ | p' | p' ] eqn:Ey;
      [ apply Qnum_zero in Ey; lra | | apply Qnum_neg in Ey; lra ].
    apply roundPositive_le; assumption.
  - destruct (Qlt_le_dec y 0) as [Hy | Hy].
    + (* both negative *)
      unfold toDouble.
      destruct (Qnum x) as [ | p | p ] eqn:Ex;
        [ apply Qnum_zero in Ex; lra | apply Qnum_pos in Ex; lra | ].
      destruct (Qnum y) as [ | p' | p' ] eqn:Ey;
        [ apply Qnum_zero in Ey; lra | apply Qnum_pos in Ey; lra | ].
      apply Qopp_le_compat. apply roundPositive_le; lra.
    + apply Qle_trans with 0; [ apply toDouble_nonpos | apply toDouble_nonneg ];
        assumption.
Qed.

End Doubles.

(** [toDouble] beside the machine: on these operands the primitive binary64
    operations return what [toDouble] makes of the exact result. *)

Example toDouble_division :
  (toDouble (valueOf 140 / valueOf 30) == valueOf (140 / 30))%Q.
Proof. apply Qeq_bool_iff. vm_compute. reflexivity. Qed.

Example toDouble_product :
  (toDouble (valueOf (140 / 30) * valueOf 14) == valueOf (140 / 30 * 14))%Q.
Proof. apply Qeq_bool_iff. vm_compute. reflexivity. Qed.

Example toDouble_difference :
  (toDouble (valueOf 0x1.dfd70a3d70a3dp+4 - valueOf 0x1.3fd70a3d70a3dp+4)
   == valueOf (0x1.dfd70a3d70a3dp+4 - 0x1.3fd70a3d70a3dp+4))%Q.
Proof. apply Qeq_bool_iff. vm_compute. reflexivity. Qed.

Example toDouble_tie_to_even :
  (toDouble (valueOf 0x1p+53 + valueOf 1) == valueOf (0x1p+53 + 1))%Q
  /\ (toDouble (valueOf 0x1p+53 + valueOf 3) == valueOf (0x1p+53 + 3))%Q
  /\ (toDouble (valueOf 0x1p+53 + valueOf 1) == valueOf 0x1p+53)%Q
  /\ (toDouble (valueOf 0x1p+53 + valueOf 3) == valueOf 0x1p+53 + 4)%Q.
Proof. repeat split; apply Qeq_bool_iff; vm_compute; reflexivity. Qed.

Example toDouble_subnormal :
  (toDouble (valueOf 0x1p-1070 / valueOf 3) == valueOf (0x1p-1070 / 3))%Q
  /\ (toDouble (valueOf 0x1p-1022 / valueOf 3) == valueOf (0x1p-1022 / 3))%Q.
Proof. split; apply Qeq_bool_iff; vm_compute; reflexivity. Qed.

Example toDouble_underflow :
  (toDouble (valueOf 0x1p-1074 / valueOf 30) == 0)%Q
  /\ (0x1p-1074 / 30 =? 0)%float = true.
Proof. split; [ apply Qeq_bool_iff; vm_compute | ]; reflexivity. Qed.

(** The order of the operations shows: [(140 / 30) * 14] and [140 * 14 / 30]
    are different doubles. *)
Example toDouble_order_of_operations :
  ~ (toDouble (toDouble ((140 # 1) / inject_Z 30) * inject_Z 14)
     == toDouble (toDouble ((140 # 1) * inject_Z 14) / inject_Z 30))%Q
  /\ (140 / 30 * 14 =? 140 * 14 / 30)%float = false.
Proof.
  split; [ | reflexivity ].
  intros H. apply Qeq_bool_iff in H. vm_compute in H. discriminate H.
Qed.

(** ** Arithmetic of the quote *)

Lemma Qltb_lt (x y : Q) : Qltb x y = true <-> (x < y)%Q.
Proof. unfold Qltb, Qlt. apply Z.ltb_lt. Qed.

Lemma Qltb_ge (x y : Q) : Qltb x y = false <-> (y <= x)%Q.
Proof. unfold Qltb, Qle. apply Z.ltb_ge. Qed.

(** [Math_round x] is the integer nearest to [x], the upper one on a tie. *)
Lemma Math_round_nearest (x : Q) :
  (x - (1 # 2) < inject_Z (Math_round x))%Q
  /\ (inject_Z (Math_round x) <= x + (1 # 2))%Q.
Proof.
  unfold Math_round. split.
  - pose proof (Qlt_floor (x + (1 # 2))) as H.
    rewrite inject_Z_plus in H.
    apply Qplus_lt_l with (z := 1%Q).
    eapply Qle_lt_trans; [ | exact H ].
    ring_simplify. apply Qle_refl.
  - apply Qfloor_le.
Qed.

Lemma Math_round_nonneg (x : Q) : (- (1 # 2) <= x)%Q -> 0 <= Math_round x.
Proof.
  intros H. unfold Math_round.
  change 0 with (Qfloor 0).
  apply Qfloor_resp_le.
  apply Qplus_le_l with (z := (- (1 # 2))%Q).
  ring_simplify. exact H.
Qed.

Lemma days_nonneg (lastActive now : Z) :
  now - lastActive <= 43200000 ->
  (- (1 # 2) <= inject_Z (lastActive - now) / inject_Z msPerDay)%Q.
Proof.
  intros H. unfold Qle, Qdiv, Qmult, Qinv, inject_Z, msPerDay. simpl. lia.
Qed.

Lemma thirtieth_nonneg (difference : Q) :
  (0 <= difference)%Q -> (0 <= toDouble (difference / inject_Z 30))%Q.
Proof.
  intros Hd. apply toDouble_nonneg.
  apply Qmult_le_0_compat; [ exact Hd | ].
  unfold Qle; simpl; lia.
Qed.

Lemma proration_nonneg (difference : Q) (days : Z) :
  (0 <= difference)%Q -> 0 <= days ->
  (0 <= toDouble (toDouble (difference / inject_Z 30) * inject_Z days))%Q.
Proof.
  intros Hd Hn. apply toDouble_nonneg. apply Qmult_le_0_compat.
  - apply thirtieth_nonneg. exact Hd.
  - unfold Qle; simpl; lia.
Qed.

(** ** [getUpgrade], stage by stage, when the storage answers *)

Section Pipeline.
Variable env : Env.
Variable w : World.
Variable user : Ctx.
Variable input : UpgradeInput.
Hypothesis Hup : storageUp env.

Lemma getUpgrade_invalid_team :
  findTeamById (db w) (teamId input) = None ->
  getUpgrade user input env w
  = (Threw (trpcError BAD_REQUEST "Invalid teamId"), after 1 0 w).
Proof. intros H. run_up Hup. rewrite H. reflexivity. Qed.

Variable team : Team.t.
Hypothesis Hteam : findTeamById (db w) (teamId input) = Some team.

Lemma getUpgrade_no_access :
  Team.userId team <> userId user ->
  getUpgrade user input env w
  = (Threw (trpcError FORBIDDEN "You don't have access to the team"), after 1 0 w).
Proof.
  intros H. run_up Hup. rewrite Hteam.
  apply Z.eqb_neq in H. rewrite H. reflexivity.
Qed.

Hypothesis Hown : Team.userId team = userId user.

Lemma getUpgrade_no_subscription :
  findSubscriptionByTeamId (db w) (teamId input) = None ->
  getUpgrade user input env w
  = (Threw (trpcError NOT_FOUND "The team doesn't have subscription"), after 2 0 w).
Proof.
  intros H. run_up Hup. rewrite Hteam, Hown, Z.eqb_refl. cbn [negb].
  run_up Hup. rewrite H. reflexivity.
Qed.

Variable subscription : Subscription.t.
Hypothesis Hsub :
  findSubscriptionByTeamId (db w) (teamId input) = Some subscription.

Lemma getUpgrade_not_active :
  findActiveActivation (db w) (Subscription.id subscription) (clock env (reads w))
  = None ->
  getUpgrade user input env w
  = (Threw (trpcError BAD_REQUEST "Subscription not active"), after 3 1 w).
Proof.
  intros H. run_up Hup. rewrite Hteam, Hown, Z.eqb_refl. cbn [negb].
  run_up Hup. rewrite Hsub. run_up Hup. rewrite H. reflexivity.
Qed.

Variable activation : SubscriptionActivation.t.
Hypothesis Hact :
  findActiveActivation (db w) (Subscription.id subscription) (clock env (reads w))
  = Some activation.

Lemma getUpgrade_invalid_plan :
  findPlanById (db w) (planId input) = None
  \/ findPlanById (db w) (Subscription.planId subscription) = None ->
  getUpgrade user input env w
  = (Threw (trpcError BAD_REQUEST "Invalid plan"), after 5 1 w).
Proof.
  intros H. run_up Hup. rewrite Hteam, Hown, Z.eqb_refl. cbn [negb].
  run_up Hup. rewrite Hsub. run_up Hup. rewrite Hact. run_up Hup.
  destruct H as [H | H]; rewrite H.
  - reflexivity.
  - destruct (find (fun p => Plan.id p =? planId input) (plans (db w)));
      reflexivity.
Qed.

Variables newPlan_ currentPlan_ : Plan.t.
Hypothesis Hnew : findPlanById (db w) (planId input) = Some newPlan_.
Hypothesis Hcur :
  findPlanById (db w) (Subscription.planId subscription) = Some currentPlan_.

Lemma getUpgrade_downgrade :
  (Plan.monthlyPrice newPlan_ < Plan.monthlyPrice currentPlan_)%Q ->
  getUpgrade user input env w
  = (Threw (trpcError BAD_REQUEST
              "Unable to calculate the price for downgrading plan"),
     after 5 1 w).
Proof.
  intros H. run_up Hup. rewrite Hteam, Hown, Z.eqb_refl. cbn [negb].
  run_up Hup. rewrite Hsub. run_up Hup. rewrite Hact. run_up Hup.
  rewrite Hnew, Hcur.
  apply Qltb_lt in H. rewrite H. reflexivity.
Qed.

Lemma getUpgrade_returns :
  (Plan.monthlyPrice currentPlan_ <= Plan.monthlyPrice newPlan_)%Q ->
  getUpgrade user input env w
  = (Returned (quoteOf activation currentPlan_ newPlan_ (clock env (S (reads w)))),
     after 5 2 w).
Proof.
  intros H. run_up Hup. rewrite Hteam, Hown, Z.eqb_refl. cbn [negb].
  run_up Hup. rewrite Hsub. run_up Hup. rewrite Hact. run_up Hup.
  rewrite Hnew, Hcur.
  apply Qltb_ge in H. rewrite H. reflexivity.
Qed.
End Pipeline.

(** A call that returns went through every stage. *)
Lemma getUpgrade_returned_inv env w user input q :
  fst (getUpgrade user input env w) = Returned q ->
  exists team subscription activation np cp,
    findTeamById (db w) (teamId input) = Some team
    /\ Team.userId team = userId user
    /\ findSubscriptionByTeamId (db w) (teamId input) = Some subscription
    /\ findActiveActivation (db w) (Subscription.id subscription) (clock env (reads w))
       = Some activation
    /\ findPlanById (db w) (planId input) = Some np
    /\ findPlanById (db w) (Subscription.planId subscription) = Some cp
    /\ (Plan.monthlyPrice cp <= Plan.monthlyPrice np)%Q
    /\ q = quoteOf activation cp np (clock env (S (reads w))).
Proof.
  unfold getUpgrade, findTeamById, findSubscriptionByTeamId, findActiveActivation,
    findPlanById.
  unfold bind, findFirst, request, newDate, throw, ret.
  cbn [db requests reads console].
  intros H.
  repeat match type of H with
  | context [if storageFails ?e ?n then _ else _] =>
      destruct (storageFails e n); cbn [fst snd db requests reads console] in H;
      [ discriminate H | ]
  | context [match find ?f ?l with _ => _ end] =>
      let E := fresh "E" in
      destruct (find f l) eqn:E; cbn [fst snd db requests reads console] in H;
      try discriminate H
  | context [if negb ?b then _ else _] =>
      let E := fresh "E" in
      destruct b eqn:E; cbn [negb fst snd db requests reads console] in H;
      try discriminate H
  | context [if Qltb ?x ?y then _ else _] =>
      let E := fresh "E" in
      destruct (Qltb x y) eqn:E; cbn [fst snd db requests reads console] in H;
      try discriminate H
  end.
  injection H as <-.
  match goal with
  | E1 : find _ (teams _) = Some ?t, E2 : find _ (subscriptions _) = Some ?s,
    E3 : find _ (subscriptionActivations _) = Some ?a,
    E4 : find (fun p => Plan.id p =? planId input) _ = Some ?n,
    E5 : find (fun p => Plan.id p =? Subscription.planId ?s) _ = Some ?c |- _ =>
      exists t, s, a, n, c
  end.
  repeat split; try assumption.
  - apply Z.eqb_eq. assumption.
  - apply Qltb_ge. assumption.
Qed.

(** ** The upgrade quote *)

(** C1.  A call of [getUpgrade] that passes the six validation steps (team
    found and owned by the requester, subscription found, an activation with
    [lastActiveDate >= now] found, both plans found, the new plan not
    cheaper) returns exactly: the two plan records in full; [daysRemaining],
    the integer nearest to [(lastActiveDate - now) / 86,400,000] where [now]
    is the clock reading taken for the computation, a tie going up (so neither
    floor nor ceiling); [priceDifference], the new monthly price less the
    current one; and [upgradingPrice = (priceDifference / 30) * daysRemaining],
    the subtraction, the division and the product each rounded to the nearest
    double, in that order.  Stated where the difference and the product stay
    within the range of the finite doubles. *)
Theorem getUpgrade_quote
    (env : Env) (w : World) (user : Ctx) (input : UpgradeInput)
    (team : Team.t) (subscription : Subscription.t)
    (activation : SubscriptionActivation.t) (newPlan_ currentPlan_ : Plan.t) :
  storageUp env ->
  findTeamById (db w) (teamId input) = Some team ->
  Team.userId team = userId user ->
  findSubscriptionByTeamId (db w) (teamId input) = Some subscription ->
  findActiveActivation (db w) (Subscription.id subscription) (clock env (reads w))
  = Some activation ->
  findPlanById (db w) (planId input) = Some newPlan_ ->
  findPlanById (db w) (Subscription.planId subscription) = Some currentPlan_ ->
  (Plan.monthlyPrice currentPlan_ <= Plan.monthlyPrice newPlan_)%Q ->
  let now := clock env (S (reads w)) in
  let days :=
    (inject_Z (SubscriptionActivation.lastActiveDate activation - now)
     / inject_Z 86400000)%Q in
  let difference :=
    (Plan.monthlyPrice newPlan_ - Plan.monthlyPrice currentPlan_)%Q in
  inRange difference ->
  inRange (toDouble (toDouble difference / inject_Z 30)
           * inject_Z (Math_round days)) ->
  exists q,
    fst (getUpgrade user input env w) = Returned q
    /\ currentPlan q = currentPlan_
    /\ newPlan q = newPlan_
    /\ daysRemaining q = Math_round days
    /\ (days - (1 # 2) < inject_Z (daysRemaining q))%Q
    /\ (inject_Z (daysRemaining q) <= days + (1 # 2))%Q
    /\ priceDifference q = toDouble difference
    /\ upgradingPrice q
       = toDouble (toDouble (priceDifference q / inject_Z 30)
                   * inject_Z (daysRemaining q)).
Proof.
  intros Hup Hteam Hown Hsub Hact Hnew Hcur Hge now days difference _ _.
  exists (quoteOf activation currentPlan_ newPlan_ now).
  rewrite (getUpgrade_returns env w user input Hup team Hteam Hown
             subscription Hsub activation Hact newPlan_ currentPlan_ Hnew Hcur Hge).
  destruct (Math_round_nearest days) as [Hlo Hhi].
  cbn [fst quoteOf currentPlan newPlan daysRemaining priceDifference upgradingPrice].
  repeat split; assumption.
Qed.

(** The last test of the suite: fourteen days left on Plus (59), upgrading to
    Premium (199).  The price is the double that [140 / 30 * 14] is on the
    machine, 65.33333333333334, and not the rational 196/3. *)
Lemma getUpgrade_quote_witness :
  exists q,
    fst (getUpgrade Fixture.caller (mkUpgradeInput 1 3) (Fixture.steady false)
           (Fixture.fresh Fixture.active)) = Returned q
    /\ currentPlan q = Fixture.Plus
    /\ newPlan q = Fixture.Premium
    /\ daysRemaining q = 14
    /\ (priceDifference q == 140 # 1)%Q
    /\ (upgradingPrice q == valueOf (140 / 30 * 14)%float)%Q
    /\ ~ (upgradingPrice q == 196 # 3)%Q.
Proof.
  destruct (getUpgrade_quote (Fixture.steady false) (Fixture.fresh Fixture.active)
              Fixture.caller (mkUpgradeInput 1 3)
              Fixture.superTeam Fixture.monthly Fixture.fortnight
              Fixture.Premium Fixture.Plus)
    as [q (Hq & Hc & Hn & Hd & _ & _ & Hp & Hu)].
  - intros n. reflexivity.
  - reflexivity.
  - reflexivity.
  - reflexivity.
  - reflexivity.
  - reflexivity.
  - reflexivity.
  - unfold Qle. simpl. lia.
  - apply Qle_bool_iff. vm_compute. reflexivity.
  - apply Qle_bool_iff. vm_compute. reflexivity.
  - exists q. rewrite Hu, Hp, Hd.
    split; [ exact Hq | ]. split; [ exact Hc | ]. split; [ exact Hn | ].
    split; [ vm_compute; reflexivity | ].
    split; [ apply Qeq_bool_iff; vm_compute; reflexivity | ].
    split; [ apply Qeq_bool_iff; vm_compute; reflexivity | ].
    intros H. apply Qeq_bool_iff in H. vm_compute in H. discriminate H.
Defined.

(** C2.  With the storage answering, the checks of [getUpgrade] run in the
    order team, ownership, subscription, activation, plans, downgrade guard,
    and the first that fails ends the call with its own error: each clause
    below assumes only that the earlier checks passed, and the world it leaves
    counts the storage requests and clock readings made up to that point.  An
    unknown [teamId] gives BAD_REQUEST "Invalid teamId" after the single team
    lookup; a team owned by someone else gives FORBIDDEN after that same
    lookup, whatever subscriptions, activations and plans are stored. *)
Theorem getUpgrade_validation_order
    (env : Env) (w : World) (user : Ctx) (input : UpgradeInput) :
  storageUp env ->
  let d := db w in
  let run := getUpgrade user input env w in
  (findTeamById d (teamId input) = None ->
   run = (Threw (trpcError BAD_REQUEST "Invalid teamId"), after 1 0 w))
  /\ forall team, findTeamById d (teamId input) = Some team ->
  (Team.userId team <> userId user ->
   run = (Threw (trpcError FORBIDDEN "You don't have access to the team"),
          after 1 0 w))
  /\ (Team.userId team = userId user ->
  (findSubscriptionByTeamId d (teamId input) = None ->
   run = (Threw (trpcError NOT_FOUND "The team doesn't have subscription"),
          after 2 0 w))
  /\ forall subscription,
     findSubscriptionByTeamId d (teamId input) = Some subscription ->
  (findActiveActivation d (Subscription.id subscription) (clock env (reads w)) = None ->
   run = (Threw (trpcError BAD_REQUEST "Subscription not active"), after 3 1 w))
  /\ forall activation,
     findActiveActivation d (Subscription.id subscription) (clock env (reads w))
     = Some activation ->
  (findPlanById d (planId input) = None
   \/ findPlanById d (Subscription.planId subscription) = None ->
   run = (Threw (trpcError BAD_REQUEST "Invalid plan"), after 5 1 w))
  /\ forall newPlan_ currentPlan_,
     findPlanById d (planId input) = Some newPlan_ ->
     findPlanById d (Subscription.planId subscription) = Some currentPlan_ ->
  (Plan.monthlyPrice newPlan_ < Plan.monthlyPrice currentPlan_)%Q ->
   run = (Threw (trpcError BAD_REQUEST
                   "Unable to calculate the price for downgrading plan"),
          after 5 1 w)).
Proof.
  intros Hup d run. subst d run.
  split; [ apply getUpgrade_invalid_team; assumption | ].
  intros team Hteam.
  split; [ apply getUpgrade_no_access; assumption | ].
  intros Hown.
  split; [ eapply getUpgrade_no_subscription; eassumption | ].
  intros subscription Hsub.
  split; [ eapply getUpgrade_not_active; eassumption | ].
  intros activation Hact.
  split; [ eapply getUpgrade_invalid_plan; eassumption | ].
  intros newPlan_ currentPlan_ Hnew Hcur Hlt.
  eapply getUpgrade_downgrade; eassumption.
Qed.

(** A stranger asking about SuperTeam, which has no subscription yet, is
    refused access; nobody gets past an unknown team. *)
Lemma getUpgrade_validation_order_witness :
  getUpgrade Fixture.stranger (mkUpgradeInput 1 3) (Fixture.steady false)
    (Fixture.fresh Fixture.teamOnly)
  = (Threw (trpcError FORBIDDEN "You don't have access to the team"),
     after 1 0 (Fixture.fresh Fixture.teamOnly))
  /\ getUpgrade Fixture.caller (mkUpgradeInput 7 3) (Fixture.steady false)
       (Fixture.fresh Fixture.active)
     = (Threw (trpcError BAD_REQUEST "Invalid teamId"),
        after 1 0 (Fixture.fresh Fixture.active)).
Proof.
  split.
  - refine (proj1 (proj2 (getUpgrade_validation_order (Fixture.steady false)
              (Fixture.fresh Fixture.teamOnly) Fixture.stranger
              (mkUpgradeInput 1 3) _) Fixture.superTeam _) _).
    + intros n. reflexivity.
    + reflexivity.
    + simpl. lia.
  - refine (proj1 (getUpgrade_validation_order (Fixture.steady false)
              (Fixture.fresh Fixture.active) Fixture.caller
              (mkUpgradeInput 7 3) _) _).
    + intros n. reflexivity.
    + reflexivity.
Defined.

(** C3.  At the downgrade guard (every earlier check passed): a new plan
    with a lower monthly price ends the call with BAD_REQUEST "Unable to
    calculate the price for downgrading plan"; a new plan with the same
    monthly price is not rejected, the call returns a quote whose
    [priceDifference] is zero. *)
Theorem getUpgrade_downgrade_guard
    (env : Env) (w : World) (user : Ctx) (input : UpgradeInput)
    (team : Team.t) (subscription : Subscription.t)
    (activation : SubscriptionActivation.t) (newPlan_ currentPlan_ : Plan.t) :
  storageUp env ->
  findTeamById (db w) (teamId input) = Some team ->
  Team.userId team = userId user ->
  findSubscriptionByTeamId (db w) (teamId input) = Some subscription ->
  findActiveActivation (db w) (Subscription.id subscription) (clock env (reads w))
  = Some activation ->
  findPlanById (db w) (planId input) = Some newPlan_ ->
  findPlanById (db w) (Subscription.planId subscription) = Some currentPlan_ ->
  ((Plan.monthlyPrice newPlan_ < Plan.monthlyPrice currentPlan_)%Q ->
   fst (getUpgrade user input env w)
   = Threw (trpcError BAD_REQUEST
              "Unable to calculate the price for downgrading plan"))
  /\ ((Plan.monthlyPrice newPlan_ == Plan.monthlyPrice currentPlan_)%Q ->
      exists q,
        fst (getUpgrade user input env w) = Returned q
        /\ (priceDifference q == 0)%Q).
Proof.
  intros Hup Hteam Hown Hsub Hact Hnew Hcur. split.
  - intros Hlt.
    rewrite (getUpgrade_downgrade env w user input Hup team Hteam Hown
               subscription Hsub activation Hact newPlan_ currentPlan_ Hnew Hcur Hlt).
    reflexivity.
  - intros Heq.
    assert (Hge : (Plan.monthlyPrice currentPlan_ <= Plan.monthlyPrice newPlan_)%Q)
      by (rewrite Heq; apply Qle_refl).
    rewrite (getUpgrade_returns env w user input Hup team Hteam Hown
               subscription Hsub activation Hact newPlan_ currentPlan_ Hnew Hcur Hge).
    eexists. split; [ reflexivity | ].
    cbn [quoteOf priceDifference]. apply toDouble_zero. rewrite Heq. ring.
Qed.

(** Asking for Basic (29) while on Plus (59) is a downgrade; asking for Plus
    itself is quoted at a difference of zero. *)
Lemma getUpgrade_downgrade_guard_witness :
  fst (getUpgrade Fixture.caller (mkUpgradeInput 1 1) (Fixture.steady false)
         (Fixture.fresh Fixture.active))
  = Threw (trpcError BAD_REQUEST
             "Unable to calculate the price for downgrading plan")
  /\ exists q,
       fst (getUpgrade Fixture.caller (mkUpgradeInput 1 2) (Fixture.steady false)
              (Fixture.fresh Fixture.active)) = Returned q
       /\ (priceDifference q == 0)%Q.
Proof.
  split.
  - refine (proj1 (getUpgrade_downgrade_guard (Fixture.steady false)
              (Fixture.fresh Fixture.active) Fixture.caller (mkUpgradeInput 1 1)
              Fixture.superTeam Fixture.monthly Fixture.fortnight
              Fixture.Basic Fixture.Plus _ _ _ _ _ _ _) _);
      try reflexivity.
    intros n. reflexivity.
  - refine (proj2 (getUpgrade_downgrade_guard (Fixture.steady false)
              (Fixture.fresh Fixture.active) Fixture.caller (mkUpgradeInput 1 2)
              Fixture.superTeam Fixture.monthly Fixture.fortnight
              Fixture.Plus Fixture.Plus _ _ _ _ _ _ _) _);
      try reflexivity.
    intros n. reflexivity.
Defined.

(** C5.  Once the team and its subscription are resolved for their owner,
    [getUpgrade] ends with BAD_REQUEST "Subscription not active" exactly when
    no stored activation of that subscription has [lastActiveDate >= now],
    [now] being the clock reading of this very call.  The verdict is a
    function of the activation rows and of that reading alone, in every world:
    it is computed afresh by each call, no stored status is consulted. *)
Theorem getUpgrade_active_iff
    (env : Env) (w : World) (user : Ctx) (input : UpgradeInput)
    (team : Team.t) (subscription : Subscription.t) :
  storageUp env ->
  findTeamById (db w) (teamId input) = Some team ->
  Team.userId team = userId user ->
  findSubscriptionByTeamId (db w) (teamId input) = Some subscription ->
  let now := clock env (reads w) in
  fst (getUpgrade user input env w)
  = Threw (trpcError BAD_REQUEST "Subscription not active")
  <-> ~ exists a,
        In a (subscriptionActivations (db w))
        /\ SubscriptionActivation.subscriptionId a = Subscription.id subscription
        /\ SubscriptionActivation.lastActiveDate a >= now.
Proof.
  intros Hup Hteam Hown Hsub now.
  destruct (findActiveActivation (db w) (Subscription.id subscription) now)
    as [activation | ] eqn:Hact.
  - (* an activation is found: some other outcome, and the witness exists *)
    assert (Hex : exists a,
               In a (subscriptionActivations (db w))
               /\ SubscriptionActivation.subscriptionId a = Subscription.id subscription
               /\ SubscriptionActivation.lastActiveDate a >= now).
    { exists activation. unfold findActiveActivation in Hact.
      apply find_some in Hact. destruct Hact as [Hin Hb].
      apply andb_prop in Hb. destruct Hb as [Hid Hd].
      apply Z.eqb_eq in Hid. apply Z.geb_le in Hd.
      repeat split; [ assumption | assumption | lia ]. }
    split; [ | intros Hno; contradiction ].
    intros Hrun. exfalso.
    destruct (findPlanById (db w) (planId input)) as [np | ] eqn:Hnew;
      [ destruct (findPlanById (db w) (Subscription.planId subscription))
          as [cp | ] eqn:Hcur | ].
    + destruct (Qlt_le_dec (Plan.monthlyPrice np) (Plan.monthlyPrice cp)) as [Hlt | Hge].
      * rewrite (getUpgrade_downgrade env w user input Hup team Hteam Hown
                   subscription Hsub activation Hact np cp Hnew Hcur Hlt) in Hrun.
        discriminate Hrun.
      * rewrite (getUpgrade_returns env w user input Hup team Hteam Hown
                   subscription Hsub activation Hact np cp Hnew Hcur Hge) in Hrun.
        discriminate Hrun.
    + rewrite (getUpgrade_invalid_plan env w user input Hup team Hteam Hown
                 subscription Hsub activation Hact (or_intror Hcur)) in Hrun.
      discriminate Hrun.
    + rewrite (getUpgrade_invalid_plan env w user input Hup team Hteam Hown
                 subscription Hsub activation Hact (or_introl Hnew)) in Hrun.
      discriminate Hrun.
  - (* none is found: the error, and no witness *)
    split.
    + intros _ [a (Hin & Hid & Hd)].
      unfold findActiveActivation in Hact.
      apply (find_none _ _ Hact) in Hin.
      apply andb_false_iff in Hin. destruct Hin as [Hin | Hin].
      * apply Z.eqb_neq in Hin. contradiction.
      * rewrite Z.geb_leb in Hin. apply Z.leb_gt in Hin. fold now in Hin. lia.
    + intros _.
      rewrite (getUpgrade_not_active env w user input Hup team Hteam Hown
                 subscription Hsub Hact).
      reflexivity.
Qed.

(** The only activation of the subscription lapsed a day ago: not active. *)
Lemma getUpgrade_active_iff_witness :
  fst (getUpgrade Fixture.caller (mkUpgradeInput 1 3) (Fixture.steady false)
         (Fixture.fresh Fixture.inactive))
  = Threw (trpcError BAD_REQUEST "Subscription not active").
Proof.
  apply (getUpgrade_active_iff (Fixture.steady false) (Fixture.fresh Fixture.inactive)
           Fixture.caller (mkUpgradeInput 1 3) Fixture.superTeam Fixture.monthly).
  - intros n. reflexivity.
  - reflexivity.
  - reflexivity.
  - reflexivity.
  - intros [a ([Ha | []] & _ & Hd)]. subst a. vm_compute in Hd.
    apply Hd. reflexivity.
Defined.

(** C8.  [getUpgrade] writes nothing: whatever the input, the stored tables,
    the clock and the behaviour of the storage driver, and whether the call
    returns a quote or throws, the storage after the call is the storage
    before it. *)
Theorem getUpgrade_no_side_effects
    (user : Ctx) (input : UpgradeInput) (env : Env) (w : World) :
  db (snd (getUpgrade user input env w)) = db w.
Proof.
  revert env w. change (readOnly (getUpgrade user input)).
  unfold getUpgrade. repeat frame_step.
Qed.

(** C6.  [get] never throws: it returns the stored plans, in storage order,
    when the storage answers its request, and the empty list when the storage
    fails; the storage is left as it was. *)
Theorem get_lists_or_degrades (env : Env) (w : World) :
  fst (get env w)
  = Returned (if storageFails env (requests w) then [] else plans (db w))
  /\ db (snd (get env w)) = db w.
Proof.
  split.
  - unfold get, tryCatch, bind, findMany, request, console_error, ret.
    destruct (storageFails env (requests w)); reflexivity.
  - revert env w. change (readOnly get). unfold get. repeat frame_step.
Qed.

Example get_with_storage_up :
  fst (get (Fixture.steady false) (Fixture.fresh Fixture.active))
  = Returned [Fixture.Basic; Fixture.Plus; Fixture.Premium].
Proof. reflexivity. Qed.

Example get_with_storage_down :
  get Fixture.down (Fixture.fresh Fixture.active)
  = (Returned [],
     mkWorld Fixture.active 1 0 ["Error fetching plans"]).
Proof. reflexivity. Qed.

(** ** Sign of the quote *)

(** C9, as stated, fails.  The activation is matched against the clock
    reading of the lookup, the days are counted from a second reading taken
    after three more storage round trips.  Here the activation ends one hour
    after the first reading and the second reading comes fourteen hours
    later: the call returns [daysRemaining = -1] and a negative price. *)
Lemma getUpgrade_quote_negative :
  exists q,
    fst (getUpgrade Fixture.caller (mkUpgradeInput 1 3) Fixture.stalled
           (Fixture.fresh Fixture.expiring)) = Returned q
    /\ daysRemaining q = -1
    /\ (upgradingPrice q < 0)%Q.
Proof.
  eexists. split; [ reflexivity | ]. split; [ reflexivity | ].
  apply Qlt_alt. vm_compute. reflexivity.
Qed.

(** C9, amended.  Whenever [getUpgrade] returns, [priceDifference] is not
    negative; and when the clock reading taken for the computation is at most
    twelve hours (43,200,000 ms) past the one taken for the activation lookup,
    [daysRemaining] and [upgradingPrice] are not negative either. *)
Theorem getUpgrade_quote_nonneg
    (env : Env) (w : World) (user : Ctx) (input : UpgradeInput) (q : UpgradeQuote) :
  fst (getUpgrade user input env w) = Returned q ->
  (0 <= priceDifference q)%Q
  /\ (clock env (S (reads w)) - clock env (reads w) <= 43200000 ->
      0 <= daysRemaining q /\ (0 <= upgradingPrice q)%Q).
Proof.
  intros Hrun.
  apply getUpgrade_returned_inv in Hrun.
  destruct Hrun as (team & subscription & activation & np & cp
                    & _ & _ & _ & Hact & _ & _ & Hge & ->).
  assert (Hdiff : (0 <= toDouble (Plan.monthlyPrice np - Plan.monthlyPrice cp))%Q).
  { apply toDouble_nonneg. apply Qle_minus_iff in Hge. exact Hge. }
  cbn [quoteOf priceDifference daysRemaining upgradingPrice].
  split; [ exact Hdiff | ].
  intros Hclock.
  unfold findActiveActivation in Hact.
  apply find_some in Hact. destruct Hact as [_ Hb].
  apply andb_prop in Hb. destruct Hb as [_ Hd]. apply Z.geb_le in Hd.
  assert (Hdays :
    0 <= Math_round
           (inject_Z (SubscriptionActivation.lastActiveDate activation
                      - clock env (S (reads w)))
            / inject_Z 86400000)).
  { apply Math_round_nonneg. apply days_nonneg. lia. }
  split; [ exact Hdays | ].
  apply proration_nonneg; assumption.
Qed.

(** With the steady clock (40 ms between readings) the quote of the test
    suite is non-negative throughout. *)
Lemma getUpgrade_quote_nonneg_witness :
  exists q,
    fst (getUpgrade Fixture.caller (mkUpgradeInput 1 3) (Fixture.steady false)
           (Fixture.fresh Fixture.active)) = Returned q
    /\ (0 <= priceDifference q)%Q
    /\ 0 <= daysRemaining q
    /\ (0 <= upgradingPrice q)%Q.
Proof.
  eexists. split; [ reflexivity | ].
  assert (Hclock :
    clock (Fixture.steady false) (S (reads (Fixture.fresh Fixture.active)))
    - clock (Fixture.steady false) (reads (Fixture.fresh Fixture.active))
    <= 43200000) by (vm_compute; discriminate).
  pose proof (getUpgrade_quote_nonneg (Fixture.steady false)
                (Fixture.fresh Fixture.active) Fixture.caller (mkUpgradeInput 1 3)
                _ eq_refl) as [Hp Hrest].
  specialize (Hrest Hclock). destruct Hrest as [Hd Hu].
  split; [ exact Hp | ]. split; [ exact Hd | exact Hu ].
Defined.

(** ** Writing plans *)

Lemma existsb_eqb_In (x : string) (l : list string) :
  existsb (String.eqb x) l = true <-> In x l.
Proof.
  rewrite existsb_exists. split.
  - intros [y [Hin Heq]]. apply String.eqb_eq in Heq. subst y. exact Hin.
  - intros Hin. exists x. split; [ exact Hin | apply String.eqb_refl ].
Qed.

Lemma distinct_NoDup (l : list string) : distinct l = true <-> NoDup l.
Proof.
  induction l as [ | x r IH ]; simpl.
  - split; [ constructor | reflexivity ].
  - rewrite andb_true_iff, negb_true_iff, IH. split.
    + intros [Hx Hr]. constructor; [ | exact Hr ].
      intros Hin. apply existsb_eqb_In in Hin. congruence.
    + intros H. inversion H as [ | ? ? Hx Hr ]; subst. split; [ | exact Hr ].
      destruct (existsb (String.eqb x) r) eqn:E; [ | reflexivity ].
      apply existsb_eqb_In in E. contradiction.
Qed.

Lemma commitPlans_accepted {A} (a : A) (t : list Plan.t) env d :
  accepted env t -> commitPlans a t env d = Some (a, set_plans t d).
Proof.
  intros Hacc. unfold commitPlans, accepted in *.
  destruct (planNameUnique env); [ | reflexivity ].
  apply distinct_NoDup in Hacc; [ | reflexivity ].
  rewrite Hacc. reflexivity.
Qed.

Lemma commitPlans_some {A} (a b : A) (t : list Plan.t) env d d' :
  commitPlans a t env d = Some (b, d') -> d' = set_plans t d /\ accepted env t.
Proof.
  unfold commitPlans, accepted. intros H.
  destruct (planNameUnique env); simpl in H.
  - destruct (distinct (map Plan.name t)) eqn:E; simpl in H; [ | discriminate H ].
    injection H as _ <-. split; [ reflexivity | ].
    intros _. apply distinct_NoDup. exact E.
  - injection H as _ <-. split; [ reflexivity | intros Hf; discriminate Hf ].
Qed.

Ltac run_write Hup :=
  unfold create, update, withInput, findUserById in *;
  repeat (first
    [ erewrite bind_returned by (apply findFirst_up; apply Hup)
    | erewrite bind_returned by reflexivity ];
    cbn [db requests reads console]).

Section Writes.
Variable env : Env.
Variable w : World.
Variable user : Ctx.
Hypothesis Hup : storageUp env.

Lemma create_forbidden (input : CreateInput) :
  createSchema input = true ->
  notAdmin (findUserById (db w) (userId user)) = true ->
  create user input env w
  = (Threw (trpcError FORBIDDEN "Only admin allowed to access"), after 1 0 w).
Proof.
  intros Hin Hno. run_write Hup. rewrite Hin. run_write Hup.
  rewrite Hno. reflexivity.
Qed.

Lemma update_forbidden (input : UpdateInput) :
  updateSchema input = true ->
  notAdmin (findUserById (db w) (userId user)) = true ->
  update user input env w
  = (Threw (trpcError FORBIDDEN "Only admin allowed to access"), after 1 0 w).
Proof.
  intros Hin Hno. run_write Hup. rewrite Hin. run_write Hup.
  rewrite Hno. reflexivity.
Qed.

Lemma create_inserts (input : CreateInput) :
  createSchema input = true ->
  notAdmin (findUserById (db w) (userId user)) = false ->
  let t := (plans (db w)
            ++ [createdRow (plans (db w)) input (clock env (reads w))])%list in
  accepted env t ->
  create user input env w
  = (Returned (mkSuccess true),
     mkWorld (set_plans t (db w)) (2 + requests w) (1 + reads w) (console w)).
Proof.
  intros Hin Hno t Hacc. run_write Hup. rewrite Hin. run_write Hup.
  rewrite Hno. run_write Hup.
  erewrite bind_returned.
  2:{ unfold insertPlan. apply request_up; [ apply Hup | ].
      apply commitPlans_accepted. exact Hacc. }
  reflexivity.
Qed.

Lemma update_sets (input : UpdateInput) :
  updateSchema input = true ->
  notAdmin (findUserById (db w) (userId user)) = false ->
  let t := map (fun p => if Plan.id p =? update_id input
                         then updatedRow input (clock env (reads w)) p else p)
               (plans (db w)) in
  accepted env t ->
  update user input env w
  = (Returned (mkSuccess true),
     mkWorld (set_plans t (db w)) (2 + requests w) (1 + reads w) (console w)).
Proof.
  intros Hin Hno t Hacc. run_write Hup. rewrite Hin. run_write Hup.
  rewrite Hno. run_write Hup.
  erewrite bind_returned.
  2:{ unfold updatePlan. apply request_up; [ apply Hup | ].
      apply commitPlans_accepted. exact Hacc. }
  reflexivity.
Qed.
End Writes.

(** C4.  For a caller whose user record is stored: without the administrator
    flag, [create] and [update] throw FORBIDDEN "Only admin allowed to access"
    and the storage is unchanged; with the flag, and the storage taking the
    write, [create] appends one plan row carrying the name and the two prices
    of the input and the clock reading as [createdAt], [update] gives the
    name, the two prices and the clock reading as [updatedAt] to the rows
    whose [id] is the input's and leaves every other row alone, and both
    return [{ success: true }] and nothing else. *)
Theorem create_update_admin_gate
    (env : Env) (w : World) (user : Ctx) (u : User.t) :
  storageUp env ->
  findUserById (db w) (userId user) = Some u ->
  let now := clock env (reads w) in
  (User.isAdmin u = false ->
   (forall input, createSchema input = true ->
      fst (create user input env w)
      = Threw (trpcError FORBIDDEN "Only admin allowed to access")
      /\ db (snd (create user input env w)) = db w)
   /\ (forall input, updateSchema input = true ->
      fst (update user input env w)
      = Threw (trpcError FORBIDDEN "Only admin allowed to access")
      /\ db (snd (update user input env w)) = db w))
  /\ (User.isAdmin u = true ->
   (forall input, createSchema input = true ->
      let t := (plans (db w) ++ [createdRow (plans (db w)) input now])%list in
      accepted env t ->
      fst (create user input env w) = Returned (mkSuccess true)
      /\ db (snd (create user input env w)) = set_plans t (db w))
   /\ (forall input, updateSchema input = true ->
      let t := map (fun p => if Plan.id p =? update_id input
                             then updatedRow input now p else p)
                   (plans (db w)) in
      accepted env t ->
      fst (update user input env w) = Returned (mkSuccess true)
      /\ db (snd (update user input env w)) = set_plans t (db w))).
Proof.
  intros Hup Hu now. split; intros Hadmin.
  - assert (Hno : notAdmin (findUserById (db w) (userId user)) = true)
      by (rewrite Hu; unfold notAdmin; rewrite Hadmin; reflexivity).
    split; intros input Hin.
    + rewrite (create_forbidden env w user Hup input Hin Hno). split; reflexivity.
    + rewrite (update_forbidden env w user Hup input Hin Hno). split; reflexivity.
  - assert (Hno : notAdmin (findUserById (db w) (userId user)) = false)
      by (rewrite Hu; unfold notAdmin; rewrite Hadmin; reflexivity).
    split; intros input Hin t Hacc.
    + rewrite (create_inserts env w user Hup input Hin Hno Hacc). split; reflexivity.
    + rewrite (update_sets env w user Hup input Hin Hno Hacc). split; reflexivity.
Qed.

(** The first four tests of the suite: the registered user is refused, then,
    made administrator, creates Starter and renames it Basic. *)
Lemma create_update_admin_gate_witness :
  (fst (create Fixture.caller Fixture.starterPlan (Fixture.steady false)
          (Fixture.fresh Fixture.memberOnly))
   = Threw (trpcError FORBIDDEN "Only admin allowed to access")
   /\ db (snd (create Fixture.caller Fixture.starterPlan (Fixture.steady false)
                 (Fixture.fresh Fixture.memberOnly))) = Fixture.memberOnly)
  /\ (fst (create Fixture.caller Fixture.starterPlan (Fixture.steady false)
             (Fixture.fresh Fixture.adminOnly))
      = Returned (mkSuccess true)
      /\ plans (db (snd (create Fixture.caller Fixture.starterPlan
                           (Fixture.steady false) (Fixture.fresh Fixture.adminOnly))))
         = [Plan.mk 1 "Starter" (19 # 1) (179 # 1) (Fixture.t0 + 25) None])
  /\ (fst (update Fixture.caller (Fixture.basicPlan 1) (Fixture.steady false)
             (Fixture.fresh Fixture.withStarter))
      = Returned (mkSuccess true)
      /\ plans (db (snd (update Fixture.caller (Fixture.basicPlan 1)
                           (Fixture.steady false) (Fixture.fresh Fixture.withStarter))))
         = [Plan.mk 1 "Basic" (29 # 1) (279 # 1) Fixture.t0 (Some (Fixture.t0 + 25))]).
Proof.
  assert (Hup : storageUp (Fixture.steady false)) by (intros n; reflexivity).
  split; [ | split ].
  - apply (proj1 (create_update_admin_gate (Fixture.steady false)
                    (Fixture.fresh Fixture.memberOnly) Fixture.caller Fixture.member
                    Hup eq_refl) eq_refl).
    reflexivity.
  - destruct (proj1 (proj2 (create_update_admin_gate (Fixture.steady false)
                       (Fixture.fresh Fixture.adminOnly) Fixture.caller Fixture.admin
                       Hup eq_refl) eq_refl) Fixture.starterPlan eq_refl)
      as [Hr Hd].
    + intros Hf. discriminate Hf.
    + split; [ exact Hr | rewrite Hd; reflexivity ].
  - destruct (proj2 (proj2 (create_update_admin_gate (Fixture.steady false)
                       (Fixture.fresh Fixture.withStarter) Fixture.caller Fixture.admin
                       Hup eq_refl) eq_refl) (Fixture.basicPlan 1) eq_refl)
      as [Hr Hd].
    + intros Hf. discriminate Hf.
    + split; [ exact Hr | rewrite Hd; reflexivity ].
Defined.

(** C10.  A caller whose id has no user record is refused like a non-admin:
    [create] and [update] throw FORBIDDEN "Only admin allowed to access", no
    other error, and the storage is unchanged. *)
Theorem create_update_unknown_user (env : Env) (w : World) (user : Ctx) :
  storageUp env ->
  findUserById (db w) (userId user) = None ->
  (forall input, createSchema input = true ->
     fst (create user input env w)
     = Threw (trpcError FORBIDDEN "Only admin allowed to access")
     /\ db (snd (create user input env w)) = db w)
  /\ (forall input, updateSchema input = true ->
     fst (update user input env w)
     = Threw (trpcError FORBIDDEN "Only admin allowed to access")
     /\ db (snd (update user input env w)) = db w).
Proof.
  intros Hup Hu.
  assert (Hno : notAdmin (findUserById (db w) (userId user)) = true)
    by (rewrite Hu; reflexivity).
  split; intros input Hin.
  - rewrite (create_forbidden env w user Hup input Hin Hno). split; reflexivity.
  - rewrite (update_forbidden env w user Hup input Hin Hno). split; reflexivity.
Qed.

(** Caller 2 is not in the users table. *)
Lemma create_update_unknown_user_witness :
  (fst (create Fixture.stranger Fixture.starterPlan (Fixture.steady false)
          (Fixture.fresh Fixture.withStarter))
   = Threw (trpcError FORBIDDEN "Only admin allowed to access")
   /\ db (snd (create Fixture.stranger Fixture.starterPlan (Fixture.steady false)
                 (Fixture.fresh Fixture.withStarter))) = Fixture.withStarter)
  /\ (fst (update Fixture.stranger (Fixture.basicPlan 1) (Fixture.steady false)
             (Fixture.fresh Fixture.withStarter))
      = Threw (trpcError FORBIDDEN "Only admin allowed to access")
      /\ db (snd (update Fixture.stranger (Fixture.basicPlan 1) (Fixture.steady false)
                    (Fixture.fresh Fixture.withStarter))) = Fixture.withStarter).
Proof.
  assert (Hup : storageUp (Fixture.steady false)) by (intros n; reflexivity).
  split.
  - apply (proj1 (create_update_unknown_user (Fixture.steady false)
                    (Fixture.fresh Fixture.withStarter) Fixture.stranger Hup eq_refl)).
    reflexivity.
  - apply (proj2 (create_update_unknown_user (Fixture.steady false)
                    (Fixture.fresh Fixture.withStarter) Fixture.stranger Hup eq_refl)).
    reflexivity.
Defined.

(** ** Plan names *)

Lemma NoDup_snoc {A} (l : list A) (x : A) :
  NoDup l -> ~ In x l -> NoDup (l ++ [x]).
Proof.
  induction l as [ | y r IH ]; simpl; intros Hnd Hx.
  - constructor; [ intros [] | constructor ].
  - inversion Hnd as [ | ? ? Hy Hr ]; subst.
    constructor.
    + rewrite in_app_iff. intros [Hin | [Heq | []]].
      * contradiction.
      * subst y. apply Hx. left. reflexivity.
    + apply IH; [ exact Hr | ]. intros Hin. apply Hx. right. exact Hin.
Qed.

(** A write call leaves the tables as they were, or replaces the plans table
    by one the storage took. *)
Lemma call_writes (c : Call) (env : Env) (w : World) :
  db (snd (call c env w)) = db w
  \/ exists t, db (snd (call c env w)) = set_plans t (db w) /\ accepted env t.
Proof.
  destruct c as [user input | user input]; simpl;
    unfold create, update, withInput, bind, findFirst, insertPlan, updatePlan,
      request, newDate, throw, ret;
    cbn [db requests reads console];
    repeat match goal with
    | |- context [if ?b then _ else _] =>
        destruct b; cbn [fst snd db requests reads console]
    | |- context [match commitPlans ?a ?t ?e ?d with _ => _ end] =>
        let E := fresh "E" in
        destruct (commitPlans a t e d) as [[? ?] | ] eqn:E;
        cbn [fst snd db requests reads console]
    end;
    try (left; reflexivity);
    match goal with
    | E : commitPlans _ ?t _ _ = Some _ |- _ =>
        apply commitPlans_some in E; destruct E as [-> Hacc];
        right; exists t; split; [ reflexivity | exact Hacc ]
    end.
Qed.

Lemma call_keeps_names_unique (c : Call) (env : Env) (w : World) :
  planNameUnique env = true ->
  namesUnique (db w) -> namesUnique (db (snd (call c env w))).
Proof.
  intros Hidx Hw.
  destruct (call_writes c env w) as [-> | [t [-> Hacc]]].
  - exact Hw.
  - unfold namesUnique. simpl. apply Hacc. exact Hidx.
Qed.

(** C7, as stated, fails.  The schema of [create] is [z.string()] for the
    name, which the empty string satisfies: an administrator stores a plan
    named [""], with or without a unique index on the name.  And the router
    looks up no name before it writes: without such an index, creating
    Starter twice leaves two rows named Starter. *)
Lemma create_accepts_empty_and_repeated_names :
  (create Fixture.caller Fixture.namelessPlan (Fixture.steady true)
     (Fixture.fresh Fixture.adminOnly)
   = (Returned (mkSuccess true),
      mkWorld (set_plans [Plan.mk 1 "" (19 # 1) (179 # 1) (Fixture.t0 + 25) None]
                 Fixture.adminOnly) 2 1 []))
  /\ (create Fixture.caller Fixture.namelessPlan (Fixture.steady false)
        (Fixture.fresh Fixture.adminOnly)
      = (Returned (mkSuccess true),
         mkWorld (set_plans [Plan.mk 1 "" (19 # 1) (179 # 1) (Fixture.t0 + 25) None]
                    Fixture.adminOnly) 2 1 []))
  /\ plans (db (runCalls [callCreate Fixture.caller Fixture.starterPlan;
                          callCreate Fixture.caller Fixture.starterPlan]
                  (Fixture.steady false) (Fixture.fresh Fixture.adminOnly)))
     = [Plan.mk 1 "Starter" (19 # 1) (179 # 1) (Fixture.t0 + 25) None;
        Plan.mk 2 "Starter" (19 # 1) (179 # 1) (Fixture.t0 + 65) None].
Proof. repeat split. Qed.

(** C7, amended.  A plan name may be empty: [create], called by an
    administrator with non-negative prices, takes any string whatever as the
    name, stores a row under it, and keeps the stored names pairwise distinct
    when the name was not stored before.  The router itself never compares
    names; where the plans table carries a unique index on the name, the
    stored names stay pairwise distinct after any sequence of [create] and
    [update] calls. *)
Theorem plan_names_any_string_unique_by_index :
  (forall env w user u input,
     storageUp env ->
     findUserById (db w) (userId user) = Some u ->
     User.isAdmin u = true ->
     (0 <= create_monthlyPrice input)%Q ->
     (0 <= create_yearlyPrice input)%Q ->
     namesUnique (db w) ->
     ~ In (create_name input) (map Plan.name (plans (db w))) ->
     let w' := snd (create user input env w) in
     fst (create user input env w) = Returned (mkSuccess true)
     /\ map Plan.name (plans (db w'))
        = (map Plan.name (plans (db w)) ++ [create_name input])%list
     /\ namesUnique (db w'))
  /\ (forall env w calls,
        planNameUnique env = true ->
        namesUnique (db w) ->
        namesUnique (db (runCalls calls env w))).
Proof.
  split.
  - intros env w user u input Hup Hu Hadmin Hm Hy Hnd Hfresh w'.
    assert (Hin : createSchema input = true).
    { unfold createSchema, nonnegative.
      apply andb_true_iff. split; apply Qle_bool_iff; assumption. }
    assert (Hno : notAdmin (findUserById (db w) (userId user)) = false)
      by (rewrite Hu; unfold notAdmin; rewrite Hadmin; reflexivity).
    assert (Hnames :
      NoDup (map Plan.name
               (plans (db w)
                ++ [createdRow (plans (db w)) input (clock env (reads w))]))).
    { rewrite map_app. simpl. apply NoDup_snoc; assumption. }
    subst w'.
    rewrite (create_inserts env w user Hup input Hin Hno (fun _ => Hnames)).
    cbn [fst snd db]. unfold namesUnique. cbn [plans set_plans].
    split; [ reflexivity | ].
    split; [ rewrite map_app; reflexivity | exact Hnames ].
  - intros env w calls Hidx. revert w.
    induction calls as [ | c rest IH ]; intros w Hw; simpl.
    + exact Hw.
    + apply IH. apply call_keeps_names_unique; assumption.
Qed.

(** An administrator stores a plan with the empty name next to Starter; and
    under the unique index a second Starter is turned away by the storage,
    the table keeping its single row. *)
Lemma plan_names_any_string_unique_by_index_witness :
  (fst (create Fixture.caller Fixture.namelessPlan (Fixture.steady true)
          (Fixture.fresh Fixture.withStarter)) = Returned (mkSuccess true)
   /\ map Plan.name
        (plans (db (snd (create Fixture.caller Fixture.namelessPlan
                           (Fixture.steady true) (Fixture.fresh Fixture.withStarter)))))
      = ["Starter"; ""])
  /\ namesUnique
       (db (runCalls [callCreate Fixture.caller Fixture.starterPlan;
                      callUpdate Fixture.caller (Fixture.basicPlan 1)]
              (Fixture.steady true) (Fixture.fresh Fixture.withStarter))).
Proof.
  split.
  - destruct (proj1 plan_names_any_string_unique_by_index (Fixture.steady true)
                (Fixture.fresh Fixture.withStarter) Fixture.caller Fixture.admin
                Fixture.namelessPlan) as (Hr & Hn & _).
    + intros n. reflexivity.
    + reflexivity.
    + reflexivity.
    + unfold Qle. simpl. lia.
    + unfold Qle. simpl. lia.
    + unfold namesUnique. simpl. constructor; [ intros [] | constructor ].
    + simpl. intros [H | []]. discriminate H.
    + split; [ exact Hr | exact Hn ].
  - apply (proj2 plan_names_any_string_unique_by_index).
    + reflexivity.
    + unfold namesUnique. simpl. constructor; [ intros [] | constructor ].
Defined.

Example second_starter_rejected_by_index :
  create Fixture.caller Fixture.starterPlan (Fixture.steady true)
    (Fixture.fresh Fixture.withStarter)
  = (Threw storageError, mkWorld Fixture.withStarter 2 1 []).
Proof. reflexivity. Qed.

(** ** The test suite, replayed on the model *)

Example test_getUpgrade_teamId_invalid :
  fst (getUpgrade Fixture.caller (mkUpgradeInput 1 1) (Fixture.steady false)
         (Fixture.fresh Fixture.plansOnly))
  = Threw (trpcError BAD_REQUEST "Invalid teamId").
Proof. reflexivity. Qed.

Example test_getUpgrade_no_subscription :
  fst (getUpgrade Fixture.caller (mkUpgradeInput 1 1) (Fixture.steady false)
         (Fixture.fresh Fixture.teamOnly))
  = Threw (trpcError NOT_FOUND "The team doesn't have subscription").
Proof. reflexivity. Qed.

Example test_getUpgrade_not_active :
  fst (getUpgrade Fixture.caller (mkUpgradeInput 1 2) (Fixture.steady false)
         (Fixture.fresh Fixture.unpaid))
  = Threw (trpcError BAD_REQUEST "Subscription not active").
Proof. reflexivity. Qed.

Example test_getUpgrade_planId_invalid :
  fst (getUpgrade Fixture.caller (mkUpgradeInput 1 12) (Fixture.steady false)
         (Fixture.fresh Fixture.active))
  = Threw (trpcError BAD_REQUEST "Invalid plan").
Proof. reflexivity. Qed.

Example test_getUpgrade_downgrading :
  fst (getUpgrade Fixture.caller (mkUpgradeInput 1 1) (Fixture.steady false)
         (Fixture.fresh Fixture.active))
  = Threw (trpcError BAD_REQUEST
             "Unable to calculate the price for downgrading plan").
Proof. reflexivity. Qed.

Example test_getUpgrade_price :
  exists q,
    fst (getUpgrade Fixture.caller (mkUpgradeInput 1 3) (Fixture.steady false)
           (Fixture.fresh Fixture.active)) = Returned q
    /\ daysRemaining q = 14
    /\ (priceDifference q == valueOf (199 - 59)%float)%Q
    /\ (upgradingPrice q == valueOf ((199 - 59) / 30 * 14)%float)%Q.
Proof.
  eexists. split; [ reflexivity | ]. split; [ reflexivity | ].
  split; apply Qeq_bool_iff; vm_compute; reflexivity.
Qed.

Example test_update_non_admin :
  update Fixture.caller (Fixture.basicPlan 1) (Fixture.steady false)
    (Fixture.fresh (mkDb [Fixture.Starter] [] [] [] [Fixture.member]))
  = (Threw (trpcError FORBIDDEN "Only admin allowed to access"),
     mkWorld (mkDb [Fixture.Starter] [] [] [] [Fixture.member]) 1 0 []).
Proof. reflexivity. Qed.

(** Updating an id no row has writes the table back as it was. *)
Example update_unknown_id_is_silent :
  update Fixture.caller (Fixture.basicPlan 9) (Fixture.steady false)
    (Fixture.fresh Fixture.withStarter)
  = (Returned (mkSuccess true), mkWorld Fixture.withStarter 2 1 []).
Proof. reflexivity. Qed.

(** A negative price never reaches the handler. *)
Example create_negative_price :
  create Fixture.caller (mkCreateInput "Starter" (-1 # 1) (179 # 1))
    (Fixture.steady false) (Fixture.fresh Fixture.adminOnly)
  = (Threw inputError, Fixture.fresh Fixture.adminOnly).
Proof. reflexivity. Qed.

(** * Further properties of the router *)

(** ** Writes are all or nothing *)

Ltac explode_write :=
  unfold create, update, withInput, bind, findFirst, insertPlan, updatePlan,
    request, newDate, throw, ret;
  cbn [db requests reads console];
  repeat match goal with
  | |- context [if ?b then _ else _] =>
      destruct b eqn:?; cbn [fst snd db requests reads console]
  | |- context [match commitPlans ?a ?t ?e ?d with _ => _ end] =>
      let E := fresh "E" in
      destruct (commitPlans a t e d) as [[? ?] | ] eqn:E;
      cbn [fst snd db requests reads console]
  end.

(** X1.  [create] either returns [{ success: true }], the plans table having
    gained exactly the row of the input at its end and nothing else having
    changed, or throws, the storage being what it was. *)
Theorem create_all_or_nothing
    (user : Ctx) (input : CreateInput) (env : Env) (w : World) :
  let run := create user input env w in
  (fst run = Returned (mkSuccess true)
   /\ db (snd run)
      = set_plans (plans (db w)
                   ++ [createdRow (plans (db w)) input (clock env (reads w))])
                  (db w))
  \/ (exists e, fst run = Threw e /\ db (snd run) = db w).
Proof.
  cbv zeta. explode_write;
    try (right; eexists; split; reflexivity).
  left. split; [ reflexivity | ].
  match goal with
  | E : commitPlans _ _ _ _ = Some _ |- _ =>
      apply commitPlans_some in E; destruct E as [-> _]
  end.
  reflexivity.
Qed.

(** X2.  [update] either returns [{ success: true }], the rows whose [id] is
    the input's carrying the input's name and prices and the clock reading as
    [updatedAt], every other row and table being what it was, or throws, the
    storage being what it was. *)
Theorem update_all_or_nothing
    (user : Ctx) (input : UpdateInput) (env : Env) (w : World) :
  let run := update user input env w in
  (fst run = Returned (mkSuccess true)
   /\ db (snd run)
      = set_plans (map (fun p => if Plan.id p =? update_id input
                                 then updatedRow input (clock env (reads w)) p
                                 else p)
                       (plans (db w)))
                  (db w))
  \/ (exists e, fst run = Threw e /\ db (snd run) = db w).
Proof.
  cbv zeta. explode_write;
    try (right; eexists; split; reflexivity).
  left. split; [ reflexivity | ].
  match goal with
  | E : commitPlans _ _ _ _ = Some _ |- _ =>
      apply commitPlans_some in E; destruct E as [-> _]
  end.
  reflexivity.
Qed.

(** ** Sequences of writes *)

(** What one write call can do to the storage. *)
Lemma call_effect (c : Call) (env : Env) (w : World) :
  db (snd (call c env w)) = db w
  \/ (exists row, db (snd (call c env w)) = set_plans (plans (db w) ++ [row]) (db w))
  \/ (exists now name monthly yearly id,
        db (snd (call c env w))
        = set_plans (map (setPlan now name monthly yearly id) (plans (db w))) (db w)).
Proof.
  destruct c as [user input | user input]; simpl; explode_write;
    try (left; reflexivity);
    match goal with
    | E : commitPlans _ _ _ _ = Some _ |- _ =>
        apply commitPlans_some in E; destruct E as [-> _]
    end.
  - right. left. eexists. reflexivity.
  - right. right. do 5 eexists. reflexivity.
Qed.

Lemma birth_setPlan now name monthly yearly id (t : list Plan.t) :
  map birth (map (setPlan now name monthly yearly id) t) = map birth t.
Proof.
  rewrite map_map. apply map_ext. intros p.
  unfold setPlan, birth. destruct (Plan.id p =? id); reflexivity.
Qed.

(** X3.  Whatever [create] and [update] calls are made, by whomever and
    however the storage behaves, no plan row is ever removed or moved and none
    changes its [id] or [createdAt]: the rows present before are still there,
    in place, new rows after them; and the teams, subscriptions, activations
    and users are untouched. *)
Theorem writes_keep_rows (calls : list Call) (env : Env) (w : World) :
  let d' := db (runCalls calls env w) in
  (exists added,
     map birth (plans d') = (map birth (plans (db w)) ++ added)%list)
  /\ teams d' = teams (db w)
  /\ subscriptions d' = subscriptions (db w)
  /\ subscriptionActivations d' = subscriptionActivations (db w)
  /\ users d' = users (db w).
Proof.
  cbv zeta. revert w.
  induction calls as [ | c rest IH ]; intros w; simpl.
  - split; [ exists []; rewrite app_nil_r; reflexivity | ].
    repeat split.
  - destruct (IH (snd (call c env w))) as ([added Hrows] & Ht & Hs & Ha & Hu).
    destruct (call_effect c env w)
      as [E | [[row E] | (now & name & monthly & yearly & id & E)]];
      rewrite E in Hrows, Ht, Hs, Ha, Hu; simpl in Hrows, Ht, Hs, Ha, Hu.
    + split; [ exists added; exact Hrows | repeat split; assumption ].
    + split; [ | repeat split; assumption ].
      exists (birth row :: added). rewrite Hrows, map_app, <- app_assoc.
      reflexivity.
    + split; [ | repeat split; assumption ].
      exists added. rewrite Hrows, birth_setPlan. reflexivity.
Qed.

(** A call by someone the storage does not know as an administrator leaves
    the storage alone. *)
Lemma outsider_call (c : Call) (env : Env) (w : World) :
  notAdmin (findUserById (db w) (userId (callerOf c))) = true ->
  db (snd (call c env w)) = db w.
Proof.
  unfold findUserById.
  destruct c as [user input | user input]; simpl; intros Hno;
    unfold create, update, withInput, bind, findFirst, request, throw;
    cbn [db requests reads console];
    repeat match goal with
    | |- context [if createSchema ?i then _ else _] =>
        destruct (createSchema i); cbn [fst snd db requests reads console]
    | |- context [if updateSchema ?i then _ else _] =>
        destruct (updateSchema i); cbn [fst snd db requests reads console]
    | |- context [if storageFails ?e ?n then _ else _] =>
        destruct (storageFails e n); cbn [fst snd db requests reads console]
    end;
    try reflexivity;
    rewrite Hno; reflexivity.
Qed.

(** X4.  Callers who are not administrators cannot change the storage, in
    any number of [create] and [update] calls: if each call of a list is made
    by a caller without a user record or without the administrator flag, the
    storage after the whole list is the storage before it. *)
Theorem outsiders_change_nothing (calls : list Call) (env : Env) (w : World) :
  outsiders (db w) calls ->
  db (runCalls calls env w) = db w.
Proof.
  revert w. induction calls as [ | c rest IH ]; intros w Hout; simpl.
  - reflexivity.
  - inversion Hout as [ | ? ? Hc Hrest ]; subst.
    pose proof (outsider_call c env w Hc) as E.
    rewrite IH; [ exact E | ].
    rewrite E. exact Hrest.
Qed.

(** A member and a stranger try five writes between them. *)
Lemma outsiders_change_nothing_witness :
  db (runCalls [callCreate Fixture.caller Fixture.starterPlan;
                callUpdate Fixture.stranger (Fixture.basicPlan 1);
                callCreate Fixture.stranger Fixture.namelessPlan;
                callUpdate Fixture.caller (Fixture.basicPlan 1);
                callCreate Fixture.caller Fixture.starterPlan]
         (Fixture.steady false)
         (Fixture.fresh (mkDb [Fixture.Starter] [] [] [] [Fixture.member])))
  = mkDb [Fixture.Starter] [] [] [] [Fixture.member].
Proof.
  apply (outsiders_change_nothing _ (Fixture.steady false)
           (Fixture.fresh (mkDb [Fixture.Starter] [] [] [] [Fixture.member]))).
  repeat constructor.
Defined.

(** ** What [getUpgrade] can throw, and what it costs *)

Ltac explode_upgrade :=
  unfold getUpgrade, bind, findFirst, request, newDate, throw, ret;
  cbn [db requests reads console];
  repeat match goal with
  | |- context [if storageFails ?e ?n then _ else _] =>
      destruct (storageFails e n); cbn [fst snd db requests reads console]
  | |- context [match find ?f ?l with _ => _ end] =>
      destruct (find f l); cbn [fst snd db requests reads console]
  | |- context [if negb ?b then _ else _] =>
      destruct b; cbn [negb fst snd db requests reads console]
  | |- context [if Qltb ?x ?y then _ else _] =>
      destruct (Qltb x y); cbn [fst snd db requests reads console]
  end.

(** X5.  [getUpgrade] throws nothing but its six errors, each with its own
    code and message, and the failure of the storage, which it lets through
    as it is. *)
Theorem getUpgrade_throws_only
    (user : Ctx) (input : UpgradeInput) (env : Env) (w : World) (e : Exception) :
  fst (getUpgrade user input env w) = Threw e ->
  In e [ storageError;
         trpcError BAD_REQUEST "Invalid teamId";
         trpcError FORBIDDEN "You don't have access to the team";
         trpcError NOT_FOUND "The team doesn't have subscription";
         trpcError BAD_REQUEST "Subscription not active";
         trpcError BAD_REQUEST "Invalid plan";
         trpcError BAD_REQUEST "Unable to calculate the price for downgrading plan" ].
Proof.
  revert e. explode_upgrade; intros e H;
    first [ discriminate H | injection H as <-; simpl; tauto ].
Qed.

Lemma getUpgrade_throws_only_witness :
  In (trpcError BAD_REQUEST "Invalid plan")
     [ storageError;
       trpcError BAD_REQUEST "Invalid teamId";
       trpcError FORBIDDEN "You don't have access to the team";
       trpcError NOT_FOUND "The team doesn't have subscription";
       trpcError BAD_REQUEST "Subscription not active";
       trpcError BAD_REQUEST "Invalid plan";
       trpcError BAD_REQUEST "Unable to calculate the price for downgrading plan" ].
Proof.
  apply (getUpgrade_throws_only Fixture.caller (mkUpgradeInput 1 12)
           (Fixture.steady false) (Fixture.fresh Fixture.active)).
  reflexivity.
Defined.

(** X6.  One call of [getUpgrade] makes at most five storage requests and
    reads the clock at most twice, exactly five and two when it returns a
    quote; it writes nothing to the console. *)
Theorem getUpgrade_round_trips
    (user : Ctx) (input : UpgradeInput) (env : Env) (w : World) :
  let run := getUpgrade user input env w in
  (requests (snd run) <= 5 + requests w)%nat
  /\ (reads (snd run) <= 2 + reads w)%nat
  /\ console (snd run) = console w
  /\ (forall q, fst run = Returned q ->
        requests (snd run) = (5 + requests w)%nat
        /\ reads (snd run) = (2 + reads w)%nat).
Proof.
  cbv zeta. explode_upgrade;
    (split; [ lia | split; [ lia | split; [ reflexivity | ] ] ]);
    intros q H; first [ discriminate H | split; reflexivity ].
Qed.

Lemma getUpgrade_round_trips_witness :
  requests (snd (getUpgrade Fixture.caller (mkUpgradeInput 1 3) (Fixture.steady false)
                   (Fixture.fresh Fixture.active))) = 5%nat
  /\ reads (snd (getUpgrade Fixture.caller (mkUpgradeInput 1 3) (Fixture.steady false)
                   (Fixture.fresh Fixture.active))) = 2%nat.
Proof.
  exact (proj2 (proj2 (proj2 (getUpgrade_round_trips Fixture.caller
           (mkUpgradeInput 1 3) (Fixture.steady false)
           (Fixture.fresh Fixture.active)))) _ eq_refl).
Defined.

(** ** What a returned quote says about the storage *)

(** X7.  [getUpgrade] returns a quote to the owner of the team only: when it
    returns, the first stored team with the requested [teamId] belongs to the
    caller.  This holds however the storage behaves. *)
Theorem getUpgrade_owner_only
    (user : Ctx) (input : UpgradeInput) (env : Env) (w : World) (q : UpgradeQuote) :
  fst (getUpgrade user input env w) = Returned q ->
  exists team,
    findTeamById (db w) (teamId input) = Some team
    /\ In team (teams (db w))
    /\ Team.id team = teamId input
    /\ Team.userId team = userId user.
Proof.
  intros H. apply getUpgrade_returned_inv in H.
  destruct H as (team & subscription & activation & np & cp & Hteam & Hown & _).
  exists team. split; [ exact Hteam | ].
  unfold findTeamById in Hteam. apply find_some in Hteam.
  destruct Hteam as [Hin Hid]. apply Z.eqb_eq in Hid.
  repeat split; assumption.
Qed.

Lemma getUpgrade_owner_only_witness :
  exists team,
    In team (teams Fixture.active)
    /\ Team.id team = 1
    /\ Team.userId team = userId Fixture.caller.
Proof.
  destruct (getUpgrade_owner_only Fixture.caller (mkUpgradeInput 1 3)
              (Fixture.steady false) (Fixture.fresh Fixture.active) _ eq_refl)
    as (team & _ & Hin & Hid & Hown).
  exists team. repeat split; assumption.
Defined.

(** X8.  The two plans of a returned quote are stored rows, the new one with
    the requested [planId], the current one with the [planId] of a stored
    subscription of the requested team, and the new one is not the cheaper of
    the two by monthly price. *)
Theorem getUpgrade_quotes_stored_plans
    (user : Ctx) (input : UpgradeInput) (env : Env) (w : World) (q : UpgradeQuote) :
  fst (getUpgrade user input env w) = Returned q ->
  In (newPlan q) (plans (db w))
  /\ Plan.id (newPlan q) = planId input
  /\ In (currentPlan q) (plans (db w))
  /\ (exists subscription,
        In subscription (subscriptions (db w))
        /\ Subscription.teamId subscription = teamId input
        /\ Plan.id (currentPlan q) = Subscription.planId subscription)
  /\ (Plan.monthlyPrice (currentPlan q) <= Plan.monthlyPrice (newPlan q))%Q.
Proof.
  intros H. apply getUpgrade_returned_inv in H.
  destruct H as (team & subscription & activation & np & cp
                 & _ & _ & Hsub & _ & Hnew & Hcur & Hge & ->).
  cbn [quoteOf newPlan currentPlan].
  unfold findPlanById in Hnew, Hcur. unfold findSubscriptionByTeamId in Hsub.
  apply find_some in Hnew. destruct Hnew as [Hnin Hnid]. apply Z.eqb_eq in Hnid.
  apply find_some in Hcur. destruct Hcur as [Hcin Hcid]. apply Z.eqb_eq in Hcid.
  apply find_some in Hsub. destruct Hsub as [Hsin Hsid]. apply Z.eqb_eq in Hsid.
  repeat split; try assumption.
  exists subscription. repeat split; assumption.
Qed.

Lemma getUpgrade_quotes_stored_plans_witness :
  exists q,
    fst (getUpgrade Fixture.caller (mkUpgradeInput 1 3) (Fixture.steady false)
           (Fixture.fresh Fixture.active)) = Returned q
    /\ In (newPlan q) Fixture.threePlans
    /\ Plan.id (newPlan q) = 3
    /\ In (currentPlan q) Fixture.threePlans.
Proof.
  eexists. split; [ reflexivity | ].
  destruct (getUpgrade_quotes_stored_plans Fixture.caller (mkUpgradeInput 1 3)
              (Fixture.steady false) (Fixture.fresh Fixture.active) _ eq_refl)
    as (Hn & Hid & Hc & _).
  repeat split; assumption.
Defined.

(** ** When the storage fails *)

(** X9.  Only [get] survives a failing storage.  When the storage rejects the
    next request, [getUpgrade], [create] and [update] (on inputs their schemas
    accept) throw the storage's error after that one request, nothing being
    written, while [get] returns the empty list. *)
Theorem storage_failure_propagates
    (user : Ctx) (env : Env) (w : World) :
  storageFails env (requests w) = true ->
  fst (get env w) = Returned []
  /\ (forall input,
        getUpgrade user input env w = (Threw storageError, after 1 0 w))
  /\ (forall input, createSchema input = true ->
        create user input env w = (Threw storageError, after 1 0 w))
  /\ (forall input, updateSchema input = true ->
        update user input env w = (Threw storageError, after 1 0 w)).
Proof.
  intros Hdown. repeat split.
  - unfold get, tryCatch, bind, findMany, request. rewrite Hdown. reflexivity.
  - intros input. unfold getUpgrade, bind, findFirst, request.
    rewrite Hdown. reflexivity.
  - intros input Hin. unfold create, withInput. rewrite Hin.
    unfold bind, findFirst, request. rewrite Hdown. reflexivity.
  - intros input Hin. unfold update, withInput. rewrite Hin.
    unfold bind, findFirst, request. rewrite Hdown. reflexivity.
Qed.

Lemma storage_failure_propagates_witness :
  fst (get Fixture.down (Fixture.fresh Fixture.active)) = Returned []
  /\ getUpgrade Fixture.caller (mkUpgradeInput 1 3) Fixture.down
       (Fixture.fresh Fixture.active)
     = (Threw storageError, after 1 0 (Fixture.fresh Fixture.active))
  /\ create Fixture.caller Fixture.starterPlan Fixture.down
       (Fixture.fresh Fixture.active)
     = (Threw storageError, after 1 0 (Fixture.fresh Fixture.active)).
Proof.
  destruct (storage_failure_propagates Fixture.caller Fixture.down
              (Fixture.fresh Fixture.active) eq_refl) as (Hg & Hu & Hc & _).
  split; [ exact Hg | ].
  split; [ apply Hu | apply Hc; reflexivity ].
Defined.

(** ** Days and price, in milliseconds *)

(** [Math.round] of a span of [d] milliseconds in days: add half a day and
    divide, rounding down. *)
Lemma Math_round_days (d : Z) :
  Math_round (inject_Z d / inject_Z 86400000) = (d + 43200000) / 86400000.
Proof.
  unfold Math_round, Qdiv, Qmult, Qinv, Qplus, inject_Z, Qfloor. simpl.
  replace (d * 1 * 2 + 86400000) with ((d + 43200000) * 2) by lia.
  change 172800000 with (86400000 * 2).
  apply Z.div_mul_cancel_r; lia.
Qed.

Lemma days_between (d k : Z) :
  (d + 43200000) / 86400000 = k
  <-> k * 86400000 - 43200000 <= d < k * 86400000 + 43200000.
Proof.
  split.
  - intros <-.
    pose proof (Z.div_mod (d + 43200000) 86400000 ltac:(lia)) as Hdm.
    pose proof (Z.mod_pos_bound (d + 43200000) 86400000 ltac:(lia)) as Hb.
    lia.
  - intros H. symmetry.
    apply Z.div_unique with (r := d + 43200000 - k * 86400000); lia.
Qed.

(** X10.  In a returned quote, [daysRemaining] counts the milliseconds from
    the second clock reading to the end of the matched activation in whole
    days, half a day rounding up: it is [k] exactly when that span lies from
    [k] days less twelve hours (included) to [k] days plus twelve hours
    (excluded). *)
Theorem getUpgrade_days_window
    (user : Ctx) (input : UpgradeInput) (env : Env) (w : World) (q : UpgradeQuote) :
  fst (getUpgrade user input env w) = Returned q ->
  exists subscription activation,
    findSubscriptionByTeamId (db w) (teamId input) = Some subscription
    /\ findActiveActivation (db w) (Subscription.id subscription)
         (clock env (reads w)) = Some activation
    /\ let span := SubscriptionActivation.lastActiveDate activation
                   - clock env (S (reads w)) in
       daysRemaining q = (span + 43200000) / 86400000
       /\ forall k,
            daysRemaining q = k
            <-> k * 86400000 - 43200000 <= span < k * 86400000 + 43200000.
Proof.
  intros H. apply getUpgrade_returned_inv in H.
  destruct H as (team & subscription & activation & np & cp
                 & _ & _ & Hsub & Hact & _ & _ & _ & ->).
  exists subscription, activation.
  split; [ exact Hsub | ]. split; [ exact Hact | ].
  cbn [quoteOf daysRemaining]. rewrite Math_round_days.
  split; [ reflexivity | ].
  intros k. apply days_between.
Qed.

(** Fourteen days less 65 ms are fourteen days. *)
Lemma getUpgrade_days_window_witness :
  exists q,
    fst (getUpgrade Fixture.caller (mkUpgradeInput 1 3) (Fixture.steady false)
           (Fixture.fresh Fixture.active)) = Returned q
    /\ daysRemaining q = (14 * 86400000 - 65 + 43200000) / 86400000.
Proof.
  eexists. split; [ reflexivity | ].
  destruct (getUpgrade_days_window Fixture.caller (mkUpgradeInput 1 3)
              (Fixture.steady false) (Fixture.fresh Fixture.active) _ eq_refl)
    as (subscription & activation & Hsub & Hact & Hdays & _).
  injection Hsub as <-. injection Hact as <-.
  exact Hdays.
Defined.



Lemma Qmult_le_l_weak (a x y : Q) :
  (0 <= a)%Q -> (x <= y)%Q -> (a * x <= a * y)%Q.
Proof.
  intros Ha Hxy. rewrite (Qmult_comm a x), (Qmult_comm a y).
  apply Qmult_le_compat_r; assumption.
Qed.

Lemma Math_round_le (x y : Q) : (x <= y)%Q -> Math_round x <= Math_round y.
Proof.
  intros H. unfold Math_round. apply Qfloor_resp_le.
  apply Qplus_le_l. exact H.
Qed.

(** X12.  A quote does not grow with time.  Of two returning calls on the
    same storage that matched the activation at the same first clock reading,
    the one whose second reading is later has no more days remaining and no
    higher price. *)
Theorem getUpgrade_quote_decreases
    (user : Ctx) (input : UpgradeInput) (env env' : Env) (w : World)
    (q q' : UpgradeQuote) :
  clock env (reads w) = clock env' (reads w) ->
  clock env (S (reads w)) <= clock env' (S (reads w)) ->
  fst (getUpgrade user input env w) = Returned q ->
  fst (getUpgrade user input env' w) = Returned q' ->
  daysRemaining q' <= daysRemaining q
  /\ (upgradingPrice q' <= upgradingPrice q)%Q.
Proof.
  intros Hsame Hlater H H'.
  apply getUpgrade_returned_inv in H. apply getUpgrade_returned_inv in H'.
  destruct H as (team & subscription & activation & np & cp
                 & Hteam & _ & Hsub & Hact & Hnew & Hcur & Hge & ->).
  destruct H' as (team' & subscription' & activation' & np' & cp'
                  & Hteam' & _ & Hsub' & Hact' & Hnew' & Hcur' & _ & ->).
  rewrite Hsub in Hsub'. injection Hsub' as <-.
  rewrite <- Hsame, Hact in Hact'. injection Hact' as <-.
  rewrite Hnew in Hnew'. injection Hnew' as <-.
  rewrite Hcur in Hcur'. injection Hcur' as <-.
  cbn [quoteOf daysRemaining upgradingPrice].
  assert (Hdays :
    Math_round (inject_Z (SubscriptionActivation.lastActiveDate activation
                          - clock env' (S (reads w))) / inject_Z 86400000)
    <= Math_round (inject_Z (SubscriptionActivation.lastActiveDate activation
                             - clock env (S (reads w))) / inject_Z 86400000)).
  { rewrite !Math_round_days. apply Z.div_le_mono; lia. }
  split; [ exact Hdays | ].
  apply toDouble_le. apply Qmult_le_l_weak.
  - apply thirtieth_nonneg. apply toDouble_nonneg.
    apply Qle_minus_iff in Hge. exact Hge.
  - rewrite <- Zle_Qle. exact Hdays.
Qed.

Lemma getUpgrade_quote_decreases_witness :
  exists q q',
    fst (getUpgrade Fixture.caller (mkUpgradeInput 1 3) (Fixture.steady false)
           (Fixture.fresh Fixture.active)) = Returned q
    /\ fst (getUpgrade Fixture.caller (mkUpgradeInput 1 3)
              (mkEnv (fun n => Fixture.t0 + 25 + 3 * Fixture.day * Z.of_nat n)
                     (fun _ => false) false)
              (Fixture.fresh Fixture.active)) = Returned q'
    /\ daysRemaining q = 14
    /\ daysRemaining q' = 11
    /\ daysRemaining q' <= daysRemaining q
    /\ (upgradingPrice q' <= upgradingPrice q)%Q.
Proof.
  do 2 eexists.
  split; [ reflexivity | ]. split; [ reflexivity | ].
  split; [ reflexivity | ]. split; [ reflexivity | ].
  apply (getUpgrade_quote_decreases Fixture.caller (mkUpgradeInput 1 3)
           (Fixture.steady false)
           (mkEnv (fun n => Fixture.t0 + 25 + 3 * Fixture.day * Z.of_nat n)
                  (fun _ => false) false)
           (Fixture.fresh Fixture.active)).
  - reflexivity.
  - simpl. lia.
  - reflexivity.
  - reflexivity.
Defined.

(** ** What [create] and [update] can throw *)

(** X13.  [create] and [update] throw nothing but the rejection of the input
    by the schema, FORBIDDEN "Only admin allowed to access", and the failure
    of the storage. *)
Theorem writes_throw_only (c : Call) (env : Env) (w : World) (e : Exception) :
  fst (call c env w) = Threw e ->
  In e [ inputError;
         trpcError FORBIDDEN "Only admin allowed to access";
         storageError ].
Proof.
  revert e. destruct c as [user input | user input]; simpl; explode_write;
    intros e H; first [ discriminate H | injection H as <-; simpl; tauto ].
Qed.

Lemma writes_throw_only_witness :
  In inputError
     [ inputError;
       trpcError FORBIDDEN "Only admin allowed to access";
       storageError ].
Proof.
  apply (writes_throw_only
           (callCreate Fixture.caller (mkCreateInput "Starter" (-1 # 1) (179 # 1)))
           (Fixture.steady false) (Fixture.fresh Fixture.adminOnly)).
  reflexivity.
Defined.

(** ** Writing, then reading *)

Lemma find_app_skip {A} (f : A -> bool) (l l' : list A) :
  (forall x, In x l -> f x = false) -> find f (l ++ l') = find f l'.
Proof.
  induction l as [ | y r IH ]; simpl; intros H.
  - reflexivity.
  - rewrite (H y (or_introl eq_refl)). apply IH.
    intros x Hx. apply H. right. exact Hx.
Qed.

Lemma find_map_same {A} (f : A -> bool) (g : A -> A) (l : list A) :
  (forall x, f (g x) = f x) -> find f (map g l) = option_map g (find f l).
Proof.
  intros Hfg. induction l as [ | y r IH ]; simpl.
  - reflexivity.
  - rewrite Hfg. destruct (f y); [ reflexivity | exact IH ].
Qed.

Lemma map_fixed {A} (g : A -> A) (l : list A) :
  (forall x, In x l -> g x = x) -> map g l = l.
Proof.
  induction l as [ | y r IH ]; simpl; intros H.
  - reflexivity.
  - rewrite (H y (or_introl eq_refl)), IH; [ reflexivity | ].
    intros x Hx. apply H. right. exact Hx.
Qed.

Lemma set_plans_same (d : Db) : set_plans (plans d) d = d.
Proof. destruct d. reflexivity. Qed.

Section AdminWrites.
Variable env : Env.
Variable w : World.
Variable user : Ctx.
Hypothesis Hup : storageUp env.
Hypothesis Hadmin : notAdmin (findUserById (db w) (userId user)) = false.

(** X14.  What an administrator creates, [get] lists: after a [create] that
    the storage takes, [get] returns the plans listed before followed by the
    new row, which carries the input's name and prices. *)
Theorem create_then_get (input : CreateInput) :
  createSchema input = true ->
  let row := createdRow (plans (db w)) input (clock env (reads w)) in
  accepted env (plans (db w) ++ [row]) ->
  fst (get env (snd (create user input env w)))
  = Returned (plans (db w) ++ [row])%list.
Proof.
  intros Hin row Hacc.
  rewrite (create_inserts env w user Hup input Hin Hadmin Hacc).
  unfold get, tryCatch, bind, findMany, request.
  cbn [snd db requests reads console]. rewrite Hup. reflexivity.
Qed.

(** X15.  The suite's [getPlanInDb] finds what [create] stored: after a
    [create] under a name no stored plan has, looking the plan up by that
    name returns the new row, with the name and the prices of the input. *)
Theorem create_then_getPlanInDb (input : CreateInput) :
  createSchema input = true ->
  let row := createdRow (plans (db w)) input (clock env (reads w)) in
  accepted env (plans (db w) ++ [row]) ->
  ~ In (create_name input) (map Plan.name (plans (db w))) ->
  fst (Suite.getPlanInDb input env (snd (create user input env w)))
  = Returned (Some row)
  /\ Plan.name row = create_name input
  /\ Plan.monthlyPrice row = create_monthlyPrice input
  /\ Plan.yearlyPrice row = create_yearlyPrice input.
Proof.
  intros Hin row Hacc Hfresh.
  rewrite (create_inserts env w user Hup input Hin Hadmin Hacc).
  split; [ | repeat split ].
  unfold Suite.getPlanInDb.
  rewrite findFirst_up by apply Hup.
  cbn [fst snd db plans set_plans].
  rewrite find_app_skip.
  - simpl. rewrite String.eqb_refl. reflexivity.
  - intros p Hp. apply String.eqb_neq. intros Heq. apply Hfresh.
    rewrite <- Heq. apply in_map. exact Hp.
Qed.

(** X16.  [update] of an [id] no stored plan has is a silent success: it
    returns [{ success: true }] and the storage is what it was. *)
Theorem update_unknown_id (input : UpdateInput) :
  updateSchema input = true ->
  findPlanById (db w) (update_id input) = None ->
  accepted env (plans (db w)) ->
  fst (update user input env w) = Returned (mkSuccess true)
  /\ db (snd (update user input env w)) = db w.
Proof.
  intros Hin Hnone Hacc.
  assert (Hsame :
    map (fun p => if Plan.id p =? update_id input
                  then updatedRow input (clock env (reads w)) p else p)
        (plans (db w)) = plans (db w)).
  { apply map_fixed. intros p Hp.
    unfold findPlanById in Hnone.
    rewrite (find_none _ _ Hnone p Hp). reflexivity. }
  rewrite (update_sets env w user Hup input Hin Hadmin).
  - cbn [fst snd db]. rewrite Hsame, set_plans_same. split; reflexivity.
  - cbv zeta. rewrite Hsame. exact Hacc.
Qed.

(** X17.  After an [update] that the storage takes, looking a plan up by the
    updated [id] returns the row found before with the input's name and
    prices and the clock reading as [updatedAt], its [id] and [createdAt]
    kept; looking up any other [id] returns what it returned before. *)
Theorem update_then_findPlanById (input : UpdateInput) :
  updateSchema input = true ->
  let now := clock env (reads w) in
  accepted env (map (fun p => if Plan.id p =? update_id input
                              then updatedRow input now p else p)
                    (plans (db w))) ->
  let d' := db (snd (update user input env w)) in
  findPlanById d' (update_id input)
  = option_map (updatedRow input now) (findPlanById (db w) (update_id input))
  /\ forall id, id <> update_id input ->
       findPlanById d' id = findPlanById (db w) id.
Proof.
  intros Hin now Hacc d'. subst d'.
  rewrite (update_sets env w user Hup input Hin Hadmin Hacc).
  cbn [snd db]. unfold findPlanById. cbn [plans set_plans].
  assert (Hid : forall id p,
            (Plan.id (if Plan.id p =? update_id input
                      then updatedRow input now p else p) =? id)
            = (Plan.id p =? id)).
  { intros id p. destruct (Plan.id p =? update_id input); reflexivity. }
  split.
  - rewrite find_map_same by (intros p; apply Hid).
    destruct (find (fun p => Plan.id p =? update_id input) (plans (db w)))
      as [p | ] eqn:E; [ | reflexivity ].
    apply find_some in E. destruct E as [_ E]. simpl. rewrite E. reflexivity.
  - intros id Hne.
    rewrite find_map_same by (intros p; apply Hid).
    destruct (find (fun p => Plan.id p =? id) (plans (db w)))
      as [p | ] eqn:E; [ | reflexivity ].
    apply find_some in E. destruct E as [_ E]. apply Z.eqb_eq in E.
    simpl. subst id. apply Z.eqb_neq in Hne. rewrite Hne. reflexivity.
Qed.
End AdminWrites.

Lemma create_then_get_witness :
  fst (get (Fixture.steady false)
         (snd (create Fixture.caller Fixture.namelessPlan (Fixture.steady false)
                 (Fixture.fresh Fixture.withStarter))))
  = Returned [Fixture.Starter;
              Plan.mk 2 "" (19 # 1) (179 # 1) (Fixture.t0 + 25) None].
Proof.
  apply (create_then_get (Fixture.steady false) (Fixture.fresh Fixture.withStarter)
           Fixture.caller).
  - intros n. reflexivity.
  - reflexivity.
  - reflexivity.
  - intros Hf. discriminate Hf.
Defined.

Lemma create_then_getPlanInDb_witness :
  fst (Suite.getPlanInDb Fixture.starterPlan (Fixture.steady false)
         (snd (create Fixture.caller Fixture.starterPlan (Fixture.steady false)
                 (Fixture.fresh Fixture.adminOnly))))
  = Returned (Some (Plan.mk 1 "Starter" (19 # 1) (179 # 1) (Fixture.t0 + 25) None)).
Proof.
  apply (create_then_getPlanInDb (Fixture.steady false)
           (Fixture.fresh Fixture.adminOnly) Fixture.caller).
  - intros n. reflexivity.
  - reflexivity.
  - reflexivity.
  - intros Hf. discriminate Hf.
  - simpl. intros [].
Defined.

Lemma update_unknown_id_witness :
  fst (update Fixture.caller (Fixture.basicPlan 9) (Fixture.steady false)
         (Fixture.fresh Fixture.withStarter)) = Returned (mkSuccess true)
  /\ db (snd (update Fixture.caller (Fixture.basicPlan 9) (Fixture.steady false)
                (Fixture.fresh Fixture.withStarter))) = Fixture.withStarter.
Proof.
  apply (update_unknown_id (Fixture.steady false) (Fixture.fresh Fixture.withStarter)
           Fixture.caller).
  - intros n. reflexivity.
  - reflexivity.
  - reflexivity.
  - reflexivity.
  - intros Hf. discriminate Hf.
Defined.

Lemma update_then_findPlanById_witness :
  findPlanById
    (db (snd (update Fixture.caller (Fixture.basicPlan 1) (Fixture.steady false)
                (Fixture.fresh Fixture.withStarter)))) 1
  = Some (Plan.mk 1 "Basic" (29 # 1) (279 # 1) Fixture.t0 (Some (Fixture.t0 + 25))).
Proof.
  apply (update_then_findPlanById (Fixture.steady false)
           (Fixture.fresh Fixture.withStarter) Fixture.caller).
  - intros n. reflexivity.
  - reflexivity.
  - reflexivity.
  - intros Hf. discriminate Hf.
Defined.

(** ** The administrator flag is read at every call *)

Lemma updateUser_up (newData : Suite.UserData) env w :
  storageFails env (requests w) = false ->
  Suite.updateUser newData env w
  = (Returned tt,
     mkWorld (Suite.set_users
                (map (fun u => if String.eqb (User.email u) Suite.email
                               then Suite.setUser newData u else u)
                     (users (db w)))
                (db w))
             (S (requests w)) (reads w) (console w)).
Proof.
  intros Hs. unfold Suite.updateUser. apply request_up; [ exact Hs | reflexivity ].
Qed.

(** X18.  The suite's [updateUser] switches the gate of the very next call.
    For a caller whose user record carries the registered e-mail address:
    once [updateUser({ isAdmin: false })] has run, [create] and [update] throw
    FORBIDDEN and write nothing; once [updateUser({ isAdmin: true })] has run,
    they are past the gate, [create] appending its row to the plans table. *)
Theorem updateUser_switches_gate
    (env : Env) (w : World) (user : Ctx) (u : User.t) (flag : bool) :
  storageUp env ->
  findUserById (db w) (userId user) = Some u ->
  User.email u = Suite.email ->
  let w' := snd (Suite.updateUser (Suite.mkUserData None (Some flag)) env w) in
  plans (db w') = plans (db w)
  /\ findUserById (db w') (userId user)
     = Some (User.mk (User.id u) (User.email u) flag)
  /\ (flag = false ->
      (forall input, createSchema input = true ->
         fst (create user input env w')
         = Threw (trpcError FORBIDDEN "Only admin allowed to access")
         /\ db (snd (create user input env w')) = db w')
      /\ (forall input, updateSchema input = true ->
         fst (update user input env w')
         = Threw (trpcError FORBIDDEN "Only admin allowed to access")
         /\ db (snd (update user input env w')) = db w'))
  /\ (flag = true ->
      forall input, createSchema input = true ->
        let row := createdRow (plans (db w)) input (clock env (reads w)) in
        accepted env (plans (db w) ++ [row]) ->
        fst (create user input env w') = Returned (mkSuccess true)
        /\ plans (db (snd (create user input env w')))
           = (plans (db w) ++ [row])%list).
Proof.
  intros Hup Hu Hmail w'. subst w'.
  rewrite updateUser_up by apply Hup. cbn [snd].
  set (w' := mkWorld _ _ _ _).
  assert (Hfound : findUserById (db w') (userId user)
                   = Some (User.mk (User.id u) (User.email u) flag)).
  { unfold findUserById, w'. cbn [db users Suite.set_users].
    rewrite find_map_same.
    - assert (He : String.eqb (User.email u) Suite.email = true)
        by (rewrite Hmail; apply String.eqb_refl).
      unfold findUserById in Hu. rewrite Hu. simpl. rewrite He. reflexivity.
    - intros x. destruct (String.eqb (User.email x) Suite.email); reflexivity. }
  split; [ reflexivity | ]. split; [ exact Hfound | ].
  split; intros ->.
  - assert (Hno : notAdmin (findUserById (db w') (userId user)) = true)
      by (rewrite Hfound; reflexivity).
    split; intros input Hin.
    + rewrite (create_forbidden env w' user Hup input Hin Hno). split; reflexivity.
    + rewrite (update_forbidden env w' user Hup input Hin Hno). split; reflexivity.
  - assert (Hno : notAdmin (findUserById (db w') (userId user)) = false)
      by (rewrite Hfound; reflexivity).
    intros input Hin Hacc.
    rewrite (create_inserts env w' user Hup input Hin Hno Hacc).
    split; reflexivity.
Qed.

(** The member of the suite, made administrator, creates Starter; made a
    member again, is refused. *)
Lemma updateUser_switches_gate_witness :
  fst (create Fixture.caller Fixture.starterPlan (Fixture.steady false)
         (snd (Suite.updateUser (Suite.mkUserData None (Some true))
                 (Fixture.steady false) (Fixture.fresh Fixture.memberOnly))))
  = Returned (mkSuccess true)
  /\ fst (create Fixture.caller Fixture.starterPlan (Fixture.steady false)
            (snd (Suite.updateUser (Suite.mkUserData None (Some false))
                    (Fixture.steady false) (Fixture.fresh Fixture.adminOnly))))
     = Threw (trpcError FORBIDDEN "Only admin allowed to access").
Proof.
  assert (Hup : storageUp (Fixture.steady false)) by (intros n; reflexivity).
  split.
  - destruct (updateUser_switches_gate (Fixture.steady false)
                (Fixture.fresh Fixture.memberOnly) Fixture.caller Fixture.member
                true Hup eq_refl eq_refl) as (_ & _ & _ & Hyes).
    apply (Hyes eq_refl Fixture.starterPlan eq_refl).
    intros Hf. discriminate Hf.
  - destruct (updateUser_switches_gate (Fixture.steady false)
                (Fixture.fresh Fixture.adminOnly) Fixture.caller Fixture.admin
                false Hup eq_refl eq_refl) as (_ & _ & Hno & _).
    apply (Hno eq_refl). reflexivity.
Defined.
